(** * SEVIRI Level 1.5 native format reader

    A shallow embedding of [satpy/readers/seviri_l1b_native.py]: the
    [NativeMSGFileHandler] class and [get_available_channels].

    Conventions of the embedding.
    - Python exceptions are values of [exn]; a method that may raise
      returns a [result].
    - Python floats are idealised as exact rationals ([Q]); a missing
      value (NaN) of a data array is the separate constructor [NaN].
    - Integers of the decoded header and trailer are [Z].
    - Strings are byte strings; [upper] is the ASCII upper-casing.
    - The header and the trailer are taken as decoded: records follow the
      key paths of the nested dictionaries the reader works on.
    - Constants, tables and helpers imported from [satpy.readers.seviri_base]
      are not part of this module; they are the fields of the classes
      [SeviriBase] and [SEVIRICalibrationHandler]. *)

From Stdlib Require Import QArith Ascii String.
From stdpp Require Import gmap strings list.

Local Open Scope Z_scope.

(** ** Exceptions and results *)

Inductive exn : Set :=
| NotImplementedError
| KeyError
| ValueError
| IndexError
| UnboundLocalError.

Inductive result (A : Type) : Type :=
| Ok (a : A)
| Raise (e : exn).
Arguments Ok {A} a.
Arguments Raise {A} e.

#[global] Instance result_ret : MRet result := fun _ a => Ok a.
#[global] Instance result_bind : MBind result := fun _ _ f m =>
  match m with
  | Ok a => f a
  | Raise e => Raise e
  end.

#[global] Instance result_fmap : FMap result := fun _ _ f m =>
  match m with
  | Ok a => Ok (f a)
  | Raise e => Raise e
  end.

(** [d[k]] on a dictionary: [KeyError] when the key is absent. *)
Definition getitem {A} (o : option A) : result A :=
  match o with
  | Some a => Ok a
  | None => Raise KeyError
  end.

(** [a[i]] on an array, [i] a non-negative position. *)
Definition array_get {A} (a : list A) (i : nat) : result A :=
  match a !! i with
  | Some x => Ok x
  | None => Raise IndexError
  end.

(** [l.index(x)]: the first position of [x], [ValueError] when absent. *)
Fixpoint index `{EqDecision A} (x : A) (l : list A) : result nat :=
  match l with
  | [] => Raise ValueError
  | y :: l' =>
      if decide (y = x) then Ok 0%nat
      else match index x l' with
           | Ok i => Ok (S i)
           | Raise e => Raise e
           end
  end.

(** [str.upper()] on a string of ASCII characters: the letters a-z become
    A-Z and every other character stays.  Python upper-cases the characters
    beyond ASCII by the Unicode tables, which are not modelled; statements
    on strings that [upper] does not send to an ASCII word say so with
    [is_ascii]. *)
Definition upper_ascii (c : ascii) : ascii :=
  let n := N_of_ascii c in
  if ((97 <=? n) && (n <=? 122))%N then ascii_of_N (n - 32) else c.

Fixpoint upper (s : string) : string :=
  match s with
  | EmptyString => EmptyString
  | String c s' => String (upper_ascii c) (upper s')
  end.

(** The characters of the string are all ASCII (below 128). *)
Fixpoint is_ascii (s : string) : bool :=
  match s with
  | EmptyString => true
  | String c s' => (N_of_ascii c <? 128)%N && is_ascii s'
  end.

(** ** The decoded header and trailer *)

(** A time stamp of the header (CDS time), kept as decoded. *)
Record datetime := { Days : Z; Milliseconds : Z }.

Record PlannedAcquisitionTime_t := {
  TrueRepeatCycleStart : datetime;
  PlannedRepeatCycleEnd : datetime }.

Record ImageAcquisition_t := {
  PlannedAcquisitionTime : PlannedAcquisitionTime_t }.

Record EarthModel_t := {
  TypeOfEarthModel : Z;
  EquatorialRadius : Q;
  NorthPolarRadius : Q;
  SouthPolarRadius : Q }.

Record GeometricProcessing_t := { EarthModel : EarthModel_t }.

Record ReferenceGrid_t := {
  GridOrigin : Z;
  ColumnDirGridStep : Q;
  LineDirGridStep : Q }.

Record Level15ImageProduction_t := { PlannedChanProcessing : list Z }.

Record ProjectionDescription_t := { LongitudeOfSSP : Q }.

Record ImageDescription_t := {
  ProjectionDescription : ProjectionDescription_t;
  ReferenceGridVIS_IR : ReferenceGrid_t;
  ReferenceGridHRV : ReferenceGrid_t;
  Level15ImageProduction : Level15ImageProduction_t }.

Record Level15ImageCalibration_t := {
  CalSlope : list Q;
  CalOffset : list Q }.

Record MPEFCalFeedback_t := {
  GSICSCalCoeff : list Q;
  GSICSOffsetCount : list Q }.

Record RadiometricProcessing_t := {
  Level15ImageCalibration : Level15ImageCalibration_t;
  MPEFCalFeedback : MPEFCalFeedback_t }.

Record SatelliteStatus_t := { SatelliteId : Z }.

(** [header['15_DATA_HEADER']] *)
Record DataHeader := {
  SatelliteStatus : SatelliteStatus_t;
  ImageAcquisition : ImageAcquisition_t;
  GeometricProcessing : GeometricProcessing_t;
  ImageDescription : ImageDescription_t;
  RadiometricProcessing : RadiometricProcessing_t }.

(** [header['15_SECONDARY_PRODUCT_HEADER']]; each field is the ['Value']
    entry of the key of that name, the numeric ones as the integer that
    [int(...)] makes of them: a header whose numeric text does not convert
    ([ValueError] in [_read_header] and [get_area_extent]) is outside these
    records. *)
Record SecondaryProductHeader := {
  SelectedBandIDs : string;
  NorthLineSelectedRectangle : Z;
  EastColumnSelectedRectangle : Z;
  SouthLineSelectedRectangle : Z;
  WestColumnSelectedRectangle : Z;
  NumberColumnsVISIR : Z;
  NumberColumnsHRV : Z;
  NumberLinesVISIR : Z;
  NumberLinesHRV : Z }.

Record Header := {
  data15hd : DataHeader;
  sec15hd : SecondaryProductHeader }.

Record ActualL15CoverageHRV_t := {
  LowerNorthLineActual : Z;
  LowerWestColumnActual : Z;
  LowerSouthLineActual : Z;
  LowerEastColumnActual : Z;
  UpperNorthLineActual : Z;
  UpperWestColumnActual : Z;
  UpperSouthLineActual : Z;
  UpperEastColumnActual : Z }.

Record ActualScanningSummary_t := { ReducedScan : bool }.

Record ImageProductionStats_t := {
  ActualScanningSummary : ActualScanningSummary_t;
  ActualL15CoverageHRV : ActualL15CoverageHRV_t }.

(** [trailer['15TRAILER']] *)
Record Trailer := { ImageProductionStats : ImageProductionStats_t }.

(** ** Requests *)

Record DatasetID := { name : string; calibration : string }.

(** ** [satpy.readers.seviri_base] *)

(** The constants and tables the reader imports.  [CHANNEL_NAMES] is a
    dictionary written in key order, kept as the list of its items;
    [CALIB] maps a platform id and a channel name to its coefficients by
    name. *)
Class SeviriBase := {
  CHANNEL_NAMES : list (Z * string);
  VIS_CHANNELS : list string;
  SATNUM : gmap Z string;
  CALIB : gmap Z (gmap string (gmap string Q));
  VISIR_NUM_COLUMNS : Z;
  VISIR_NUM_LINES : Z;
  HRV_NUM_COLUMNS : Z;
  dec10216 : list Byte.byte -> list Z }.

(** [CHANNEL_NAMES[k]] and [CHANNEL_NAMES.values()]. *)
Fixpoint assoc {V} (k : Z) (items : list (Z * V)) : option V :=
  match items with
  | [] => None
  | (k', v) :: items' => if decide (k' = k) then Some v else assoc k items'
  end.

Definition CHANNEL_NAMES_get `{SeviriBase} (k : Z) : result string :=
  getitem (assoc k CHANNEL_NAMES).

Definition CHANNEL_NAMES_values `{SeviriBase} : list string :=
  snd <$> CHANNEL_NAMES.

(** ** The handler *)

(** [self.mda], as [_read_header] fills it. *)
Record ProjectionParameters := {
  proj_a : Q;
  proj_b : Q;
  proj_h : Q;
  ssp_longitude : Q }.

Record Mda := {
  is_full_disk : bool;
  available_channels : gmap string bool;
  channel_list : list string;
  platform_name : string;
  projection_parameters : ProjectionParameters;
  number_of_lines : Z;
  number_of_columns : Z;
  hrv_number_of_lines : Z;
  hrv_number_of_columns : Z }.

(** [self.dask_array]: the line records of the data block.  The ['visir']
    field holds, per line, the packed payload of each standard channel; with
    one record per line the channel axis is absent.  The ['hrv'] field, when
    the layout has it, holds three payloads per line. *)
Inductive visir_line_data :=
| Visir2D (lines : list (list Byte.byte))
| Visir3D (lines : list (list (list Byte.byte))).

Record DataBlock := {
  visir : visir_line_data;
  hrv : option (list (list (list Byte.byte))) }.

Record NativeMSGFileHandler := {
  calib_mode : string;
  header : Header;
  mda : Mda;
  trailer : Trailer;
  platform_id : Z;
  dask_array : DataBlock }.

(** *** [start_time], [end_time] *)

Definition start_time (self : NativeMSGFileHandler) : datetime :=
  TrueRepeatCycleStart
    (PlannedAcquisitionTime (ImageAcquisition (data15hd (header self)))).

Definition end_time (self : NativeMSGFileHandler) : datetime :=
  PlannedRepeatCycleEnd
    (PlannedAcquisitionTime (ImageAcquisition (data15hd (header self)))).

(** *** [_calculate_area_extent] *)

Definition AreaExtent : Type := Q * Q * Q * Q.

Definition _calculate_area_extent
    (center_point : Q) (north east south west : Z)
    (we_offset ns_offset column_step line_step : Q) : AreaExtent :=
  let ll_c := ((center_point - inject_Z east + 0.5 + we_offset) * column_step)%Q in
  let ll_l := ((inject_Z north - center_point + 0.5 + ns_offset) * line_step)%Q in
  let ur_c := ((center_point - inject_Z west - 0.5 + we_offset) * column_step)%Q in
  let ur_l := ((inject_Z south - center_point - 0.5 + ns_offset) * line_step)%Q in
  (ll_c, ll_l, ur_c, ur_l).

(** *** [get_area_extent] *)

(** What [get_area_extent] returns: one extent, or the list of the two
    window extents of the high-resolution channel with their sizes. *)
Inductive area_extent_result :=
| Extent (area_extent : AreaExtent)
| Windows (upper_area_extent lower_area_extent : AreaExtent)
          (upper_nlines upper_ncols lower_nlines lower_ncols : Z).

(** Lines 311-325: the offsets of the earth model, (ns_offset, we_offset). *)
Definition earth_model_offsets (earth_model : Z) (dataset_id : DatasetID)
  : result (Q * Q) :=
  if decide (earth_model = 2) then Ok (0%Q, 0%Q)
  else if decide (earth_model = 1) then
    if decide (name dataset_id = "HRV") then Ok ((-1.5)%Q, 1.5%Q)
    else Ok ((-0.5)%Q, 0.5%Q)
  else Raise NotImplementedError.

(** Lines 327-338: grid origin, center point, coefficient and steps. *)
Definition grid_parameters `{SeviriBase} (hd : DataHeader)
    (dataset_id : DatasetID) : Z * Q * Z * Q * Q :=
  if decide (name dataset_id = "HRV") then
    let g := ReferenceGridHRV (ImageDescription hd) in
    (GridOrigin g, (inject_Z HRV_NUM_COLUMNS / 2 - 2)%Q, 3,
     (ColumnDirGridStep g * 1000.0)%Q, (LineDirGridStep g * 1000.0)%Q)
  else
    let g := ReferenceGridVIS_IR (ImageDescription hd) in
    (GridOrigin g, (inject_Z VISIR_NUM_COLUMNS / 2)%Q, 1,
     (ColumnDirGridStep g * 1000.0)%Q, (LineDirGridStep g * 1000.0)%Q).

Definition origins : gmap Z string :=
  <[0 := "NW"]> (<[1 := "SW"]> (<[2 := "SE"]> (<[3 := "NE"]> ∅))).

(** Lines 340-347: building the message looks the origin up in [origins]
    before the error is raised. *)
Definition check_grid_origin (grid_origin : Z) : result unit :=
  if decide (grid_origin ≠ 2) then
    _ ← getitem (origins !! grid_origin);
    Raise NotImplementedError
  else Ok tt.

(** Lines 327-411: the rest of [get_area_extent], once the offsets are
    known. *)
Definition area_extent_from `{SeviriBase} (self : NativeMSGFileHandler)
    (dataset_id : DatasetID) (ns_offset we_offset : Q)
  : result area_extent_result :=
  let hd := data15hd (header self) in
  let sec := sec15hd (header self) in
  let '(grid_origin, center_point, coeff, column_step, line_step) :=
    grid_parameters hd dataset_id in
  _ ← check_grid_origin grid_origin;
  let is_rapid_scan :=
    ReducedScan (ActualScanningSummary (ImageProductionStats (trailer self))) in
  if bool_decide (name dataset_id = "HRV") && (is_full_disk (mda self) || is_rapid_scan)
  then
    let HRV_bounds := ActualL15CoverageHRV (ImageProductionStats (trailer self)) in
    let lower_north_line := LowerNorthLineActual HRV_bounds in
    let lower_west_column := LowerWestColumnActual HRV_bounds in
    let lower_south_line := LowerSouthLineActual HRV_bounds in
    let lower_east_column := LowerEastColumnActual HRV_bounds in
    let lower_area_extent :=
      _calculate_area_extent center_point lower_north_line lower_east_column
        lower_south_line lower_west_column we_offset ns_offset
        column_step line_step in
    if is_rapid_scan then Ok (Extent lower_area_extent)
    else
      let lower_nlines := lower_north_line - lower_south_line + 1 in
      let lower_ncols := lower_west_column - lower_east_column + 1 in
      let upper_north_line := UpperNorthLineActual HRV_bounds in
      let upper_west_column := UpperWestColumnActual HRV_bounds in
      let upper_south_line := UpperSouthLineActual HRV_bounds in
      let upper_east_column := UpperEastColumnActual HRV_bounds in
      let upper_area_extent :=
        _calculate_area_extent center_point upper_north_line upper_east_column
          upper_south_line upper_west_column we_offset ns_offset
          column_step line_step in
      let upper_nlines := upper_north_line - upper_south_line + 1 in
      let upper_ncols := upper_west_column - upper_east_column + 1 in
      Ok (Windows upper_area_extent lower_area_extent
            upper_nlines upper_ncols lower_nlines lower_ncols)
  else
    let north := coeff * NorthLineSelectedRectangle sec in
    let east := coeff * EastColumnSelectedRectangle sec in
    let west := coeff * WestColumnSelectedRectangle sec in
    let south := coeff * SouthLineSelectedRectangle sec in
    Ok (Extent (_calculate_area_extent center_point north east south west
                  we_offset ns_offset column_step line_step)).

Definition get_area_extent `{SeviriBase} (self : NativeMSGFileHandler)
    (dataset_id : DatasetID) : result area_extent_result :=
  let hd := data15hd (header self) in
  let earth_model := TypeOfEarthModel (EarthModel (GeometricProcessing hd)) in
  '(ns_offset, we_offset) ← earth_model_offsets earth_model dataset_id;
  area_extent_from self dataset_id ns_offset we_offset.

(** *** [get_available_channels] *)

(** The loop body of lines 522-523 over the pairs of [zip]. *)
Fixpoint get_available_channels_loop `{SeviriBase}
    (pairs : list (nat * ascii)) (retv : gmap string bool)
  : result (gmap string bool) :=
  match pairs with
  | [] => Ok retv
  | (idx, char) :: pairs' =>
      key ← CHANNEL_NAMES_get (Z.of_nat idx + 1);
      get_available_channels_loop pairs'
        (<[key := bool_decide (char = "X"%char)]> retv)
  end.

Definition get_available_channels `{SeviriBase} (header : Header)
  : result (gmap string bool) :=
  let chlist_str := SelectedBandIDs (sec15hd header) in
  get_available_channels_loop
    (zip (seq 0 12) (list_ascii_of_string chlist_str)) ∅.

(** *** [_read_header] *)

(** Lines 167-168: the comprehension over [CHANNEL_NAMES.values()]. *)
Fixpoint select_channels (available : gmap string bool) (names : list string)
  : result (list string) :=
  match names with
  | [] => Ok []
  | i :: names' =>
      b ← getitem (available !! i);
      rest ← select_channels available names';
      Ok (if b : bool then i :: rest else rest)
  end.

(** Lines 194-195: the size of the selected rectangle. *)
Definition ncolumns_of (west east : Z) : Z := west - east + 1.
Definition nrows_of (north south : Z) : Z := north - south + 1.

(** [_read_header] on the decoded header: the metadata and the platform id
    it leaves on the handler (the warnings it logs are not kept).
    [int(cols_hrv_hdr / 2)] goes through a float; it is the quotient
    truncated towards zero as long as the header value is below 2^53 in
    absolute value, and statements about it carry that bound. *)
Definition _read_header `{SeviriBase} (header : Header) : result (Mda * Z) :=
  let hd := data15hd header in
  let sec := sec15hd header in
  available ← get_available_channels header;
  chans ← select_channels available CHANNEL_NAMES_values;
  let platform_id := SatelliteId (SatelliteStatus hd) in
  sat ← getitem (SATNUM !! platform_id);
  let platform := ("Meteosat-" +:+ sat)%string in
  let em := EarthModel (GeometricProcessing hd) in
  let equator_radius := (EquatorialRadius em * 1000)%Q in
  let north_polar_radius := (NorthPolarRadius em * 1000)%Q in
  let south_polar_radius := (SouthPolarRadius em * 1000)%Q in
  let polar_radius := ((north_polar_radius + south_polar_radius) * 0.5)%Q in
  let ssp_lon := LongitudeOfSSP (ProjectionDescription (ImageDescription hd)) in
  let proj := {| proj_a := equator_radius; proj_b := polar_radius;
                 proj_h := 35785831.00%Q; ssp_longitude := ssp_lon |} in
  let north := NorthLineSelectedRectangle sec in
  let east := EastColumnSelectedRectangle sec in
  let south := SouthLineSelectedRectangle sec in
  let west := WestColumnSelectedRectangle sec in
  let ncolumns := ncolumns_of west east in
  let nrows := nrows_of north south in
  let full_disk :=
    if bool_decide (nrows < VISIR_NUM_LINES)
       || bool_decide (ncolumns < VISIR_NUM_COLUMNS)
    then false else true in
  let modulo := ncolumns `mod` 4 in
  let padding := if decide (modulo > 0) then 4 - modulo else 0 in
  let cols_visir := ncolumns + padding in
  let cols_hrv_hdr := NumberColumnsHRV sec in
  let cols_hrv :=
    if decide (ncolumns < VISIR_NUM_COLUMNS) then cols_hrv_hdr
    else cols_hrv_hdr `quot` 2 in
  Ok ({| is_full_disk := full_disk;
         available_channels := available;
         channel_list := chans;
         platform_name := platform;
         projection_parameters := proj;
         number_of_lines := NumberLinesVISIR sec;
         number_of_columns := cols_visir;
         hrv_number_of_lines := NumberLinesHRV sec;
         hrv_number_of_columns := cols_hrv |}, platform_id).

(** ** Data arrays *)

(** A value of a float array: a number or the missing value. *)
Inductive float32 :=
| NaN
| Val (q : Q).

(** Attributes set on a dataset. *)
Inductive attr :=
| AttrStr (s : string)
| AttrWavelength (w : Q * Q * Q)
| AttrOrbital (projection_longitude projection_latitude projection_altitude : Q).

(** A two-dimensional integer array, row-major. *)
Record ndarray := { shape : Z * Z; flat : list Z }.

(** An [xarray.DataArray] of floats. *)
Record DataArray := {
  dims : list string;
  da_shape : Z * Z;
  values : list float32;
  attrs : gmap string attr }.

Record DatasetInfo := {
  units : string;
  wavelength : Q * Q * Q;
  standard_name : string }.

(** [a.reshape(shape)] of a flat array, as numpy does it: one dimension may
    be -1 and is then inferred from the size and the other dimension, which
    must divide the size and not be 0; any other negative dimension is
    refused, and without a -1 the sizes must agree.  Every refusal is a
    [ValueError]. *)
Definition reshape (a : list Z) (shp : Z * Z) : result ndarray :=
  let size := Z.of_nat (length a) in
  let '(r, c) := shp in
  if decide (r < -1 ∨ c < -1 ∨ (r = -1 ∧ c = -1)) then Raise ValueError
  else if decide (r = -1) then
    if decide (c = 0 ∨ size `mod` c ≠ 0) then Raise ValueError
    else Ok {| shape := (size `div` c, c); flat := a |}
  else if decide (c = -1) then
    if decide (r = 0 ∨ size `mod` r ≠ 0) then Raise ValueError
    else Ok {| shape := (r, size `div` r); flat := a |}
  else if decide (size = r * c) then Ok {| shape := shp; flat := a |}
  else Raise ValueError.

(** The rows of a row-major array of [n] rows of [c] values. *)
Fixpoint rows (n c : nat) (l : list Z) : list (list Z) :=
  match n with
  | O => []
  | S n' => take c l :: rows n' c (drop c l)
  end.

Definition ndarray_rows (a : ndarray) : list (list Z) :=
  rows (Z.to_nat (fst (shape a))) (Z.to_nat (snd (shape a))) (flat a).

(** [np.stack((d0, d1, d2), axis=1)] of three arrays of one shape, in
    row-major order: line by line, the row of each. *)
Definition stack_axis1 (d0 d1 d2 : ndarray) : list Z :=
  concat (zip_with (fun r0 r12 => r0 ++ r12) (ndarray_rows d0)
            (zip_with (fun r1 r2 => r1 ++ r2) (ndarray_rows d1) (ndarray_rows d2))).

(** [raw.flatten()] of line payloads. *)
Definition flatten {A} (raw : list (list A)) : list A := concat raw.

(** [raw[:, i, :]] on the line payloads. *)
Fixpoint take_channel (lines : list (list (list Byte.byte))) (i : nat)
  : result (list (list Byte.byte)) :=
  match lines with
  | [] => Ok []
  | line :: lines' =>
      r ← array_get line i;
      rest ← take_channel lines' i;
      Ok (r :: rest)
  end.

(** [xr.DataArray(data, dims=['y', 'x']).where(data != 0).astype(np.float32)] *)
Definition where_nonzero (v : Z) : float32 :=
  if decide (v ≠ 0) then Val (inject_Z v) else NaN.

Definition masked_DataArray (data : ndarray) : DataArray :=
  {| dims := ["y"; "x"];
     da_shape := shape data;
     values := where_nonzero <$> flat data;
     attrs := ∅ |}.

(** The calibration methods inherited from [SEVIRICalibrationHandler]
    ([satpy.readers.seviri_base]); any of them may raise. *)
Class SEVIRICalibrationHandler := {
  _convert_to_radiance : DataArray -> Q -> Q -> result DataArray;
  _vis_calibrate : DataArray -> Q -> result DataArray;
  _ir_calibrate : DataArray -> string -> Z -> result DataArray }.

Section Handler.
Context `{SeviriBase} `{SEVIRICalibrationHandler}.

(** *** [calibrate] *)

(** Lines 489-500: the gain and offset of channel [channel], whose position
    in the full channel table is [i]. *)
Definition calibration_coefficients (self : NativeMSGFileHandler)
    (channel : string) (i : nat) : result (Q * Q) :=
  let data15hdr := data15hd (header self) in
  if bool_decide (upper (calib_mode self) ≠ "GSICS")
     || bool_decide (channel ∈ VIS_CHANNELS)
  then
    let coeffs := Level15ImageCalibration (RadiometricProcessing data15hdr) in
    gain ← array_get (CalSlope coeffs) i;
    offset ← array_get (CalOffset coeffs) i;
    Ok (gain, offset)
  else
    let coeffs := MPEFCalFeedback (RadiometricProcessing data15hdr) in
    gain ← array_get (GSICSCalCoeff coeffs) i;
    offset ← array_get (GSICSOffsetCount coeffs) i;
    let offset := (offset * gain)%Q in
    Ok (gain, offset).

(** Reading the local variable [res], which is bound only on some paths. *)
Definition local (res : option DataArray) : result DataArray :=
  match res with
  | Some r => Ok r
  | None => Raise UnboundLocalError
  end.

(** Lines 503-510: from the radiance to the requested level. *)
Definition convert_level (self : NativeMSGFileHandler) (dataset_id : DatasetID)
    (i : nat) (res : option DataArray) : result (option DataArray) :=
  let data15hdr := data15hd (header self) in
  let calibration := calibration dataset_id in
  let channel := name dataset_id in
  if decide (calibration = "reflectance") then
    by_platform ← getitem (CALIB !! platform_id self);
    by_channel ← getitem (by_platform !! channel);
    solar_irradiance ← getitem (by_channel !! "F");
    r ← local res;
    Some <$> _vis_calibrate r solar_irradiance
  else if decide (calibration = "brightness_temperature") then
    cal_type ← array_get
      (PlannedChanProcessing
         (Level15ImageProduction (ImageDescription data15hdr))) i;
    r ← local res;
    Some <$> _ir_calibrate r channel cal_type
  else Ok res.

Definition calibrate (self : NativeMSGFileHandler) (data : DataArray)
    (dataset_id : DatasetID) : result DataArray :=
  let data15hdr := data15hd (header self) in
  let calibration := calibration dataset_id in
  let channel := name dataset_id in
  i ← index channel CHANNEL_NAMES_values;
  if decide (calibration = "counts") then Ok data
  else
    res ← (if decide (calibration ∈
                        ["radiance"; "reflectance"; "brightness_temperature"])
           then
             if bool_decide (upper (calib_mode self) ≠ "GSICS")
                && bool_decide (upper (calib_mode self) ≠ "NOMINAL")
             then Raise NotImplementedError
             else
               '(gain, offset) ← calibration_coefficients self channel i;
               Some <$> _convert_to_radiance data gain offset
           else Ok None);
    res ← convert_level self dataset_id i res;
    local res.

(** *** [get_dataset] *)

(** Lines 418-429: the unpacked samples of a standard channel. *)
Definition visir_data (self : NativeMSGFileHandler) (dataset_id : DatasetID)
  : result ndarray :=
  let shape := (number_of_lines (mda self), number_of_columns (mda self)) in
  raw ← (if decide (length (channel_list (mda self)) = 1%nat) then
           Ok (match visir (dask_array self) with
               | Visir2D lines => flatten lines
               | Visir3D lines => flatten (flatten lines)
               end)
         else
           i ← index (name dataset_id) (channel_list (mda self));
           match visir (dask_array self) with
           | Visir2D _ => Raise IndexError
           | Visir3D lines => flatten <$> take_channel lines i
           end);
  reshape (dec10216 raw) shape.

(** Lines 432-446: the three sub-lines of each line of the high-resolution
    channel, unpacked and stacked.  A data block without the ['hrv'] field
    has no such records to index: [KeyError]. *)
Definition hrv_data (self : NativeMSGFileHandler) : result ndarray :=
  let shape :=
    (hrv_number_of_lines (mda self), hrv_number_of_columns (mda self)) in
  match hrv (dask_array self) with
  | None => Raise KeyError
  | Some lines =>
      raw2 ← take_channel lines 2;
      raw1 ← take_channel lines 1;
      raw0 ← take_channel lines 0;
      let shape_layer :=
        (number_of_lines (mda self), hrv_number_of_columns (mda self)) in
      data2 ← reshape (dec10216 (flatten raw2)) shape_layer;
      data1 ← reshape (dec10216 (flatten raw1)) shape_layer;
      data0 ← reshape (dec10216 (flatten raw0)) shape_layer;
      reshape (stack_axis1 data0 data1 data2) shape
  end.

(** Lines 415-446: the integer array [data] of the requested channel. *)
Definition raw_data (self : NativeMSGFileHandler) (dataset_id : DatasetID)
  : result ndarray :=
  if decide (name dataset_id ∉ channel_list (mda self)) then Raise KeyError
  else if decide (name dataset_id ∉ ["HRV"]) then visir_data self dataset_id
  else hrv_data self.

(** Lines 454-462. *)
Definition set_attrs (self : NativeMSGFileHandler) (dataset_info : DatasetInfo)
    (dataset : DataArray) : DataArray :=
  let proj := projection_parameters (mda self) in
  {| dims := dims dataset;
     da_shape := da_shape dataset;
     values := values dataset;
     attrs :=
       <["orbital_parameters" := AttrOrbital (ssp_longitude proj) 0 (proj_h proj)]>
       (<["sensor" := AttrStr "seviri"]>
       (<["platform_name" := AttrStr (platform_name (mda self))]>
       (<["standard_name" := AttrStr (standard_name dataset_info)]>
       (<["wavelength" := AttrWavelength (wavelength dataset_info)]>
       (<["units" := AttrStr (units dataset_info)]> (attrs dataset)))))) |}.

Definition get_dataset (self : NativeMSGFileHandler) (dataset_id : DatasetID)
    (dataset_info : DatasetInfo) : result DataArray :=
  data ← raw_data self dataset_id;
  let xarr := masked_DataArray data in
  dataset ← calibrate self xarr dataset_id;
  Ok (set_attrs self dataset_info dataset).

End Handler.

(** ** A concrete instance *)

(** The reader is run below on the tables of the SEVIRI instrument: twelve
    channels, the high-resolution one last. *)
Module Sample.

(** Modelled from the spec: [dec10216] of [seviri_base] is not part of this
    module.  Every 5 bytes hold 4 samples of 10 bits, most significant bit
    first; bytes after the last whole group are dropped. *)
Fixpoint unpack_10bit (inbuf : list Byte.byte) : list Z :=
  match inbuf with
  | b0 :: b1 :: b2 :: b3 :: b4 :: inbuf' =>
      let a0 := Z.of_N (Byte.to_N b0) in
      let a1 := Z.of_N (Byte.to_N b1) in
      let a2 := Z.of_N (Byte.to_N b2) in
      let a3 := Z.of_N (Byte.to_N b3) in
      let a4 := Z.of_N (Byte.to_N b4) in
      (Z.shiftl a0 2 + Z.shiftr a1 6)
      :: (Z.shiftl (Z.land a1 63) 4 + Z.shiftr a2 4)
      :: (Z.shiftl (Z.land a2 15) 6 + Z.shiftr a3 2)
      :: (Z.shiftl (Z.land a3 3) 8 + a4)
      :: unpack_10bit inbuf'
  | _ => []
  end.

Definition channel_names : list (Z * string) :=
  [(1, "VIS006"); (2, "VIS008"); (3, "IR_016"); (4, "IR_039");
   (5, "WV_062"); (6, "WV_073"); (7, "IR_087"); (8, "IR_097");
   (9, "IR_108"); (10, "IR_120"); (11, "IR_134"); (12, "HRV")]%string.

Definition solar (f : Q) : gmap string Q := {[ "F"%string := f ]}.

#[export] Instance seviri_base : SeviriBase := {|
  CHANNEL_NAMES := channel_names;
  VIS_CHANNELS := ["HRV"; "VIS006"; "VIS008"; "IR_016"]%string;
  SATNUM := <[321 := "8"%string]> (<[322 := "9"%string]> ∅);
  CALIB := {[ 321 :=
    <["HRV"%string := solar 78.7599%Q]>
    (<["VIS006"%string := solar 65.2296%Q]>
    (<["VIS008"%string := solar 73.0127%Q]>
    (<["IR_016"%string := solar 62.3715%Q]> ∅))) ]};
  VISIR_NUM_COLUMNS := 3712;
  VISIR_NUM_LINES := 3712;
  HRV_NUM_COLUMNS := 11136;
  dec10216 := unpack_10bit |}.

Definition map_values (f : Q -> Q) (data : DataArray) : DataArray :=
  {| dims := dims data;
     da_shape := da_shape data;
     values := (fun v => match v with NaN => NaN | Val q => Val (f q) end)
                 <$> values data;
     attrs := attrs data |}.

(** Modelled from the spec: the calibration methods of [seviri_base] are not
    part of this module.  The radiance is counts times gain plus offset; the
    reflectance is taken as a percentage of the solar irradiance, and the
    brightness temperature, whose formula the spec leaves to the external
    capability, as the radiance itself for the processing types 1 and 2. *)
#[export] Instance calibration_handler : SEVIRICalibrationHandler := {|
  _convert_to_radiance data gain offset :=
    Ok (map_values (fun c => Qred (c * gain + offset)) data);
  _vis_calibrate data solar_irradiance :=
    Ok (map_values (fun r => Qred (100 * r / solar_irradiance)) data);
  _ir_calibrate data channel cal_type :=
    if decide (cal_type = 1 ∨ cal_type = 2) then Ok data
    else Raise NotImplementedError |}.

Definition grid (origin : Z) (step : Q) : ReferenceGrid_t :=
  {| GridOrigin := origin; ColumnDirGridStep := step; LineDirGridStep := step |}.

(** A decoded header: earth model, grid origins, band selection and the
    selected rectangle are the arguments. *)
Definition make_header (earth_model origin_visir origin_hrv : Z)
    (bands : string) (north east south west : Z) : Header :=
  {| data15hd := {|
       SatelliteStatus := {| SatelliteId := 321 |};
       ImageAcquisition := {| PlannedAcquisitionTime := {|
         TrueRepeatCycleStart := {| Days := 22000; Milliseconds := 43200000 |};
         PlannedRepeatCycleEnd := {| Days := 22000; Milliseconds := 44100000 |} |} |};
       GeometricProcessing := {| EarthModel := {|
         TypeOfEarthModel := earth_model;
         EquatorialRadius := 6378.169%Q;
         NorthPolarRadius := 6356.5838%Q;
         SouthPolarRadius := 6356.5838%Q |} |};
       ImageDescription := {|
         ProjectionDescription := {| LongitudeOfSSP := 0%Q |};
         ReferenceGridVIS_IR := grid origin_visir 3%Q;
         ReferenceGridHRV := grid origin_hrv 1%Q;
         Level15ImageProduction := {| PlannedChanProcessing :=
           [0; 0; 0; 2; 2; 2; 2; 2; 2; 2; 2; 0] |} |};
       RadiometricProcessing := {|
         Level15ImageCalibration := {|
           CalSlope := (fun k => inject_Z k) <$> [1; 2; 3; 4; 5; 6; 7; 8; 9; 10; 11; 12];
           CalOffset := (fun k => inject_Z k) <$>
             [-1; -2; -3; -4; -5; -6; -7; -8; -9; -10; -11; -12] |};
         MPEFCalFeedback := {|
           GSICSCalCoeff := (fun k => inject_Z k) <$>
             [0; 0; 0; 40; 50; 60; 70; 80; 90; 100; 110; 0];
           GSICSOffsetCount := (fun k => inject_Z k) <$>
             [0; 0; 0; -14; -15; -16; -17; -18; -19; -20; -21; 0] |} |} |};
     sec15hd := {|
       SelectedBandIDs := bands;
       NorthLineSelectedRectangle := north;
       EastColumnSelectedRectangle := east;
       SouthLineSelectedRectangle := south;
       WestColumnSelectedRectangle := west;
       NumberColumnsVISIR := west - east + 1;
       NumberColumnsHRV := 3 * (west - east + 1);
       NumberLinesVISIR := north - south + 1;
       NumberLinesHRV := 3 * (north - south + 1) |} |}.

Definition make_trailer (reduced_scan : bool) : Trailer :=
  {| ImageProductionStats := {|
       ActualScanningSummary := {| ReducedScan := reduced_scan |};
       ActualL15CoverageHRV := {|
         LowerNorthLineActual := 8256;
         LowerWestColumnActual := 7464;
         LowerSouthLineActual := 1;
         LowerEastColumnActual := 1897;
         UpperNorthLineActual := 11136;
         UpperWestColumnActual := 8064;
         UpperSouthLineActual := 8257;
         UpperEastColumnActual := 2497 |} |} |}.

Definition no_mda : Mda :=
  {| is_full_disk := true;
     available_channels := ∅;
     channel_list := [];
     platform_name := "";
     projection_parameters :=
       {| proj_a := 0; proj_b := 0; proj_h := 0; ssp_longitude := 0 |};
     number_of_lines := 0;
     number_of_columns := 0;
     hrv_number_of_lines := 0;
     hrv_number_of_columns := 0 |}.

(** [__init__]: the metadata and the platform id come from [_read_header]. *)
Definition read_header_or_default (header : Header) : Mda * Z :=
  match _read_header header with
  | Ok r => r
  | Raise _ => (no_mda, 0)
  end.

Definition make_handler (mode : string) (header : Header) (trailer : Trailer)
    (block : DataBlock) : NativeMSGFileHandler :=
  {| calib_mode := mode;
     header := header;
     mda := (read_header_or_default header).1;
     trailer := trailer;
     platform_id := (read_header_or_default header).2;
     dask_array := block |}.

(** Requests and files to run the reader on. *)
Definition request (channel level : string) : DatasetID :=
  {| name := channel; calibration := level |}.

Definition info : DatasetInfo :=
  {| units := "1"; wavelength := (0.56, 0.635, 0.71)%Q;
     standard_name := "toa_outgoing_radiance_per_unit_wavelength" |}.

Definition bytes (l : list N) : list Byte.byte :=
  (fun n => default Byte.x00 (Byte.of_N n)) <$> l.

Definition no_block : DataBlock := {| visir := Visir3D []; hrv := None |}.

(** Two lines of two standard channels, four samples each; the first
    channel holds the samples 0 1 3 4 and 1 0 0 0. *)
Definition two_lines : DataBlock :=
  {| visir := Visir3D
       [ [ bytes [0; 0; 16; 12; 4]%N; bytes [255; 255; 255; 255; 255]%N ];
         [ bytes [0; 64; 0; 0; 0]%N; bytes [255; 255; 255; 255; 255]%N ] ];
     hrv := None |}.

(** A full-disk file with all channels. *)
Definition full_disk (mode : string) (earth_model origin : Z)
    (reduced_scan : bool) : NativeMSGFileHandler :=
  make_handler mode
    (make_header earth_model origin origin "XXXXXXXXXXXX" 3712 1 1 3712)
    (make_trailer reduced_scan) no_block.

(** A region of 2 lines and 4 columns with the channels VIS006 and IR_039. *)
Definition small_region (mode : string) : NativeMSGFileHandler :=
  make_handler mode (make_header 2 2 2 "X--X--------" 2 1 1 4)
    (make_trailer false) two_lines.

Definition some_data : DataArray :=
  {| dims := ["y"; "x"]; da_shape := (1, 2);
     values := [Val 5; NaN]; attrs := ∅ |}.

End Sample.

(** * Vocabulary of the statements *)

(** The extent formula, in the words of the specification. *)
Definition extent_formula (c north east south west : Q)
    (we_offset ns_offset col_step row_step : Q) : AreaExtent :=
  let ll_col := ((c - east + 0.5 + we_offset) * col_step)%Q in
  let ll_row := ((north - c + 0.5 + ns_offset) * row_step)%Q in
  let ur_col := ((c - west - 0.5 + we_offset) * col_step)%Q in
  let ur_row := ((south - c - 0.5 + ns_offset) * row_step)%Q in
  (ll_col, ll_row, ur_col, ur_row).

Section Vocabulary.
Context `{SeviriBase}.

(** The center reference point and the grid of a channel. *)
Definition center_of (dataset_id : DatasetID) : Q :=
  if decide (name dataset_id = "HRV")
  then (inject_Z HRV_NUM_COLUMNS / 2 - 2)%Q
  else (inject_Z VISIR_NUM_COLUMNS / 2)%Q.

Definition grid_of (self : NativeMSGFileHandler) (dataset_id : DatasetID)
  : ReferenceGrid_t :=
  let descr := ImageDescription (data15hd (header self)) in
  if decide (name dataset_id = "HRV") then ReferenceGridHRV descr
  else ReferenceGridVIS_IR descr.

Definition earth_model_of (self : NativeMSGFileHandler) : Z :=
  TypeOfEarthModel (EarthModel (GeometricProcessing (data15hd (header self)))).

Definition is_rapid_scan_of (self : NativeMSGFileHandler) : bool :=
  ReducedScan (ActualScanningSummary (ImageProductionStats (trailer self))).

Definition HRV_bounds_of (self : NativeMSGFileHandler) : ActualL15CoverageHRV_t :=
  ActualL15CoverageHRV (ImageProductionStats (trailer self)).

End Vocabulary.

(** The four coordinates of an extent. *)
Definition ll_col (e : AreaExtent) : Q := e.1.1.1.
Definition ll_row (e : AreaExtent) : Q := e.1.1.2.
Definition ur_col (e : AreaExtent) : Q := e.1.2.
Definition ur_row (e : AreaExtent) : Q := e.2.

(** The handler with other metadata and another data block. *)
Definition with_file_content (self : NativeMSGFileHandler) (m : Mda)
    (block : DataBlock) : NativeMSGFileHandler :=
  {| calib_mode := calib_mode self; header := header self; mda := m;
     trailer := trailer self; platform_id := platform_id self;
     dask_array := block |}.

Definition calibrated_levels : list string :=
  ["radiance"; "reflectance"; "brightness_temperature"].

(** The dictionary after the assignments of the loop, for the names and
    the characters paired by position. *)
Fixpoint insert_all (names : list string) (chars : list ascii)
    (retv : gmap string bool) : gmap string bool :=
  match names, chars with
  | nm :: names', c :: chars' =>
      insert_all names' chars' (<[nm := bool_decide (c = "X"%char)]> retv)
  | _, _ => retv
  end.

(** The names whose character is the selection marker, in the order of
    the names. *)
Fixpoint marked (names : list string) (chars : list ascii) : list string :=
  match names, chars with
  | nm :: names', c :: chars' =>
      if decide (c = "X"%char) then nm :: marked names' chars'
      else marked names' chars'
  | _, _ => []
  end.

(** * More of the reader *)

(** ** [_get_data_dtype] *)

(** The record of one line of one channel: twelve fields of fixed size and
    the packed samples, [line_data], whose number of bytes is kept. *)
Record line_record := { line_data : Z }.

Definition get_lrec (cols : Z) : line_record := {| line_data := cols |}.

(** The record of one scan line of the file: [number_of_visir_channels]
    records of the standard channels and, when the file holds the
    high-resolution channel, three records of it. *)
Record data_dtype := {
  visir_rec : line_record;
  number_of_visir_channels : nat;
  hrv_rec : option line_record }.

(** [int(cols * 1.25)] on an integer. *)
Definition packed_size (cols : Z) : Z := (5 * cols) `quot` 4.

(** [np.dtype(drec)]: a sub-array whose size is negative or does not fit a
    C int is refused. *)
Definition fits_C_int (n : Z) : bool :=
  bool_decide (0 <= n) && bool_decide (n <= 2147483647).

Definition np_dtype (d : data_dtype) : result data_dtype :=
  if negb (fits_C_int (line_data (visir_rec d)))
     || match hrv_rec d with
        | Some r => negb (fits_C_int (line_data r))
        | None => false
        end
  then Raise ValueError else Ok d.

Definition _get_data_dtype (self : NativeMSGFileHandler) : result data_dtype :=
  let visir_rec := get_lrec (packed_size (number_of_columns (mda self))) in
  let number_of_visir_channels :=
    length (filter (λ s, ¬ s = "HRV") (channel_list (mda self))) in
  has_hrv ← getitem (available_channels (mda self) !! "HRV");
  let hrv_rec :=
    if has_hrv : bool
    then Some (get_lrec (packed_size (hrv_number_of_columns (mda self))))
    else None in
  np_dtype {| visir_rec := visir_rec;
              number_of_visir_channels := number_of_visir_channels;
              hrv_rec := hrv_rec |}.

(** ** [get_area_def] *)

(** A value of the dictionary [pdict]. *)
Inductive pvalue :=
| PFloat (q : Q)
| PInt (z : Z)
| PStr (s : string).

(** [satpy.readers._geos_area.get_area_definition] and the stacked areas of
    [pyresample.geometry], which are not part of this module.  The area
    definition is built from the dictionary, as it is at the call, and from what
    [get_area_extent] returned. *)
Class GeosArea := {
  Area : Type;
  get_area_definition : gmap string pvalue → area_extent_result → result Area;
  StackedAreaDefinition : Area → Area → result Area;
  squeeze : Area → result Area }.

Definition get_area_def `{SeviriBase} `{GeosArea} (self : NativeMSGFileHandler)
    (dataset_id : DatasetID) : result Area :=
  let proj := projection_parameters (mda self) in
  let pdict : gmap string pvalue :=
    <["ssp_lon" := PFloat (ssp_longitude proj)]>
    (<["h" := PFloat (proj_h proj)]>
    (<["b" := PFloat (proj_b proj)]>
    (<["a" := PFloat (proj_a proj)]> ∅))) in
  if decide (name dataset_id = "HRV") then
    let pdict :=
      <["p_id" := PStr "seviri_hrv"]>
      (<["a_desc" := PStr "SEVIRI high resolution channel area"]>
      (<["a_name" := PStr "geos_seviri_hrv"]>
      (<["ncols" := PInt (hrv_number_of_columns (mda self))]>
      (<["nlines" := PInt (hrv_number_of_lines (mda self))]> pdict)))) in
    if is_full_disk (mda self) then
      r ← get_area_extent self dataset_id;
      match r with
      | Windows upper_area_extent lower_area_extent
                upper_nlines upper_ncols lower_nlines lower_ncols =>
          let pdict :=
            <["ncols" := PInt upper_ncols]>
            (<["nlines" := PInt upper_nlines]>
            (<["a_desc" := PStr "SEVIRI high resolution channel, upper window"]>
               pdict)) in
          upper_area ← get_area_definition pdict (Extent upper_area_extent);
          let pdict :=
            <["ncols" := PInt lower_ncols]>
            (<["nlines" := PInt lower_nlines]>
            (<["a_desc" := PStr "SEVIRI high resolution channel, lower window"]>
               pdict)) in
          lower_area ← get_area_definition pdict (Extent lower_area_extent);
          area ← StackedAreaDefinition lower_area upper_area;
          squeeze area
      | Extent _ => Raise ValueError
      end
    else
      r ← get_area_extent self dataset_id;
      get_area_definition pdict r
  else
    let pdict :=
      <["p_id" := PStr "seviri_visir"]>
      (<["a_desc" := PStr "SEVIRI low resolution channel area"]>
      (<["a_name" := PStr "geos_seviri_visir"]>
      (<["ncols" := PInt (number_of_columns (mda self))]>
      (<["nlines" := PInt (number_of_lines (mda self))]> pdict)))) in
    r ← get_area_extent self dataset_id;
    get_area_definition pdict r.

(** ** Vocabulary of the further statements *)

(** The handler with another trailer and other metadata. *)
Definition with_trailer_mda (self : NativeMSGFileHandler) (t : Trailer)
    (m : Mda) : NativeMSGFileHandler :=
  {| calib_mode := calib_mode self; header := header self; mda := m;
     trailer := t; platform_id := platform_id self;
     dask_array := dask_array self |}.

(** The handler with another calibration mode. *)
Definition with_calib_mode (self : NativeMSGFileHandler) (mode : string)
  : NativeMSGFileHandler :=
  {| calib_mode := mode; header := header self; mda := mda self;
     trailer := trailer self; platform_id := platform_id self;
     dask_array := dask_array self |}.

(** The rows of three arrays taken in turn: the row of the first, of the
    second and of the third, line after line. *)
Fixpoint interleave3 {A} (l0 l1 l2 : list A) : list A :=
  match l0, l1, l2 with
  | x0 :: l0', x1 :: l1', x2 :: l2' => x0 :: x1 :: x2 :: interleave3 l0' l1' l2'
  | _, _, _ => []
  end.

(** An extent moved by [dx] along the columns and [dy] along the lines. *)
Definition shift_extent (dx dy : Q) (e : AreaExtent) : AreaExtent :=
  ((ll_col e + dx)%Q, (ll_row e + dy)%Q, (ur_col e + dx)%Q, (ur_row e + dy)%Q).

(** Equality of extents up to the representation of the rationals. *)
Definition extent_eq (e1 e2 : AreaExtent) : Prop :=
  (ll_col e1 == ll_col e2)%Q ∧ (ll_row e1 == ll_row e2)%Q
  ∧ (ur_col e1 == ur_col e2)%Q ∧ (ur_row e1 == ur_row e2)%Q.

(** The entry [CALIB[platform_id][channel]["F"]], when every key is there. *)
Definition solar_irradiance_of `{SeviriBase} (platform_id : Z)
    (channel : string) : option Q :=
  match CALIB !! platform_id with
  | Some by_platform =>
      match by_platform !! channel with
      | Some by_channel => by_channel !! "F"
      | None => None
      end
  | None => None
  end.

(** ** Further files to run the reader on *)

Module Sample2.
Import Sample.

(** Modelled from the spec: the construction of area objects is an external
    collaborator.  An area is kept as the list of its parts, each the
    dictionary and the extent it was built from; only a single extent can
    be turned into an area. *)
#[export] Instance geos_area : GeosArea := {|
  Area := list (gmap string pvalue * AreaExtent);
  get_area_definition pdict r :=
    match r with
    | Extent e => Ok [(pdict, e)]
    | Windows _ _ _ _ _ _ => Raise ValueError
    end;
  StackedAreaDefinition lower upper := Ok (lower ++ upper);
  squeeze area := Ok area |}.

(** A header with another satellite id. *)
Definition with_satellite (h : Header) (sid : Z) : Header :=
  {| data15hd := {|
       SatelliteStatus := {| SatelliteId := sid |};
       ImageAcquisition := ImageAcquisition (data15hd h);
       GeometricProcessing := GeometricProcessing (data15hd h);
       ImageDescription := ImageDescription (data15hd h);
       RadiometricProcessing := RadiometricProcessing (data15hd h) |};
     sec15hd := sec15hd h |}.

(** A region of one line and four columns with VIS006 and HRV; the three
    records of the high-resolution line hold the samples 0, 1023 and 1. *)
Definition hrv_line : DataBlock :=
  {| visir := Visir2D [ bytes [0; 64; 16; 4; 1]%N ];
     hrv := Some [ [ replicate 15 Byte.x00;
                     replicate 15 Byte.xff;
                     bytes [0; 64; 16; 4; 1; 0; 64; 16; 4; 1; 0; 64; 16; 4; 1]%N ] ] |}.

Definition hrv_region : NativeMSGFileHandler :=
  make_handler "nominal" (make_header 2 2 2 "X----------X" 1 1 1 4)
    (make_trailer false) hrv_line.

End Sample2.

(** * Properties *)

(** ** Repeat-cycle times *)

(** C9: [start_time] is the [TrueRepeatCycleStart] field and [end_time] the
    [PlannedRepeatCycleEnd] field of the planned acquisition time of the
    header, as they are; no other part of the handler takes part. *)
Theorem start_end_time_verbatim (self : NativeMSGFileHandler) :
  let planned :=
    PlannedAcquisitionTime (ImageAcquisition (data15hd (header self))) in
  start_time self = TrueRepeatCycleStart planned
  ∧ end_time self = PlannedRepeatCycleEnd planned.
Proof. split; reflexivity. Qed.

(** ** Area extent *)

Lemma _calculate_area_extent_formula c north east south west we ns cs ls :
  _calculate_area_extent c north east south west we ns cs ls
  = extent_formula c (inject_Z north) (inject_Z east) (inject_Z south)
      (inject_Z west) we ns cs ls.
Proof. reflexivity. Qed.

Section AreaExtent.
Context `{SeviriBase}.

Lemma grid_parameters_eq self dataset_id :
  grid_parameters (data15hd (header self)) dataset_id
  = (GridOrigin (grid_of self dataset_id), center_of dataset_id,
     if decide (name dataset_id = "HRV") then 3 else 1,
     (ColumnDirGridStep (grid_of self dataset_id) * 1000.0)%Q,
     (LineDirGridStep (grid_of self dataset_id) * 1000.0)%Q).
Proof.
  unfold grid_parameters, grid_of, center_of.
  destruct (decide (name dataset_id = "HRV")); reflexivity.
Qed.

(** C1: whenever [get_area_extent] returns, every extent it returns is the
    extent formula at the center point of the channel, the offsets of the
    earth model and the grid steps in meters; the bounds are those of the
    selected rectangle for a standard channel, three times those for the
    high-resolution channel in a region of interest, and the actual bounds
    of the trailer for each window of the high-resolution channel. *)
Theorem area_extent_formula (self : NativeMSGFileHandler)
    (dataset_id : DatasetID) (r : area_extent_result) :
  get_area_extent self dataset_id = Ok r →
  let c := center_of dataset_id in
  let col_step := (ColumnDirGridStep (grid_of self dataset_id) * 1000.0)%Q in
  let row_step := (LineDirGridStep (grid_of self dataset_id) * 1000.0)%Q in
  let sec := sec15hd (header self) in
  let b := HRV_bounds_of self in
  ∃ ns_offset we_offset : Q,
    earth_model_offsets (earth_model_of self) dataset_id
      = Ok (ns_offset, we_offset)
    ∧ let formula (north east south west : Z) :=
        extent_formula c (inject_Z north) (inject_Z east) (inject_Z south)
          (inject_Z west) we_offset ns_offset col_step row_step in
      match r with
      | Extent e =>
          if decide (name dataset_id = "HRV") then
            if is_rapid_scan_of self then
              e = formula (LowerNorthLineActual b) (LowerEastColumnActual b)
                    (LowerSouthLineActual b) (LowerWestColumnActual b)
            else
              is_full_disk (mda self) = false
              ∧ e = formula (3 * NorthLineSelectedRectangle sec)
                      (3 * EastColumnSelectedRectangle sec)
                      (3 * SouthLineSelectedRectangle sec)
                      (3 * WestColumnSelectedRectangle sec)
          else
            e = formula (1 * NorthLineSelectedRectangle sec)
                  (1 * EastColumnSelectedRectangle sec)
                  (1 * SouthLineSelectedRectangle sec)
                  (1 * WestColumnSelectedRectangle sec)
      | Windows upper lower _ _ _ _ =>
          name dataset_id = "HRV"
          ∧ is_rapid_scan_of self = false
          ∧ upper = formula (UpperNorthLineActual b) (UpperEastColumnActual b)
                      (UpperSouthLineActual b) (UpperWestColumnActual b)
          ∧ lower = formula (LowerNorthLineActual b) (LowerEastColumnActual b)
                      (LowerSouthLineActual b) (LowerWestColumnActual b)
      end.
Proof.
  intros Hget c col_step row_step sec b.
  unfold get_area_extent in Hget. fold (earth_model_of self) in Hget.
  destruct (earth_model_offsets (earth_model_of self) dataset_id)
    as [[ns we]|e] eqn:Hoff; [|discriminate Hget].
  exists ns, we. split; [reflexivity|].
  cbn [mbind result_bind] in Hget.
  unfold area_extent_from in Hget. rewrite grid_parameters_eq in Hget.
  destruct (check_grid_origin _); [|discriminate Hget].
  cbn [mbind result_bind] in Hget.
  fold (is_rapid_scan_of self) (HRV_bounds_of self) in Hget.
  rewrite !_calculate_area_extent_formula in Hget.
  destruct (decide (name dataset_id = "HRV")) as [Hn|Hn].
  - rewrite (bool_decide_eq_true_2 _ Hn) in Hget. cbn [andb] in Hget.
    destruct (is_rapid_scan_of self) eqn:Hrs.
    + rewrite orb_true_r in Hget. inversion Hget; subst r. reflexivity.
    + rewrite orb_false_r in Hget.
      destruct (is_full_disk (mda self)) eqn:Hfd;
        inversion Hget; subst r; auto.
  - rewrite (bool_decide_eq_false_2 _ Hn) in Hget. cbn [andb] in Hget.
    inversion Hget; subst r. reflexivity.
Qed.

End AreaExtent.

Section AreaExtentMore.
Context `{SeviriBase}.

(** C2: the offsets of a request are (0, 0) under earth model 2, whatever
    the channel; (-0.5, 0.5) for a standard channel and (-1.5, 1.5) for the
    high-resolution channel under earth model 1; the rest of the request
    runs with these values.  Under any other earth model the request raises
    [NotImplementedError]. *)
Theorem earth_model_offsets_spec (self : NativeMSGFileHandler)
    (dataset_id : DatasetID) :
  let em := earth_model_of self in
  (em = 2 →
     earth_model_offsets em dataset_id = Ok (0, 0)%Q
     ∧ get_area_extent self dataset_id
       = area_extent_from self dataset_id 0%Q 0%Q)
  ∧ (em = 1 → name dataset_id ≠ "HRV" →
     earth_model_offsets em dataset_id = Ok (-0.5, 0.5)%Q
     ∧ get_area_extent self dataset_id
       = area_extent_from self dataset_id (-0.5)%Q 0.5%Q)
  ∧ (em = 1 → name dataset_id = "HRV" →
     earth_model_offsets em dataset_id = Ok (-1.5, 1.5)%Q
     ∧ get_area_extent self dataset_id
       = area_extent_from self dataset_id (-1.5)%Q 1.5%Q)
  ∧ (em ≠ 2 → em ≠ 1 →
     get_area_extent self dataset_id = Raise NotImplementedError).
Proof.
  intros em. unfold get_area_extent. fold (earth_model_of self). fold em.
  unfold earth_model_offsets.
  repeat split; intros; repeat case_decide; try congruence; try lia;
    reflexivity.
Qed.

Lemma check_grid_origin_cases (grid_origin : Z) :
  check_grid_origin grid_origin
  = if decide (grid_origin = 2) then Ok tt
    else if decide (grid_origin ∈ [0; 1; 3]) then Raise NotImplementedError
    else Raise KeyError.
Proof.
  unfold check_grid_origin.
  destruct (decide (grid_origin = 2)) as [->|Hne]; [reflexivity|].
  rewrite decide_True by exact Hne.
  destruct (decide (grid_origin ∈ [0; 1; 3])) as [Hin|Hout].
  - repeat (apply elem_of_cons in Hin as [->|Hin]; [reflexivity|]).
    by apply elem_of_nil in Hin.
  - assert (origins !! grid_origin = None) as ->; [|reflexivity].
    unfold origins. rewrite !lookup_insert_ne, lookup_empty; [done|..];
      intros <-; apply Hout; set_solver.
Qed.

(** With a supported earth model, a grid origin other than 2 stops the
    request: [NotImplementedError] for the origins 0, 1 and 3 of the table,
    [KeyError] for any other value. *)
Lemma unsupported_grid_origin (self : NativeMSGFileHandler)
    (dataset_id : DatasetID) (ns_offset we_offset : Q) :
  earth_model_offsets (earth_model_of self) dataset_id
    = Ok (ns_offset, we_offset) →
  GridOrigin (grid_of self dataset_id) ≠ 2 →
  get_area_extent self dataset_id
  = if decide (GridOrigin (grid_of self dataset_id) ∈ [0; 1; 3])
    then Raise NotImplementedError else Raise KeyError.
Proof.
  intros Hoff Hg. unfold get_area_extent. fold (earth_model_of self).
  rewrite Hoff. cbn [mbind result_bind]. unfold area_extent_from.
  rewrite grid_parameters_eq, check_grid_origin_cases.
  destruct (decide (GridOrigin (grid_of self dataset_id) = 2)) as [He|_];
    [contradiction|].
  destruct (decide (GridOrigin (grid_of self dataset_id) ∈ [0; 1; 3]));
    reflexivity.
Qed.

(** C6: for a reduced-scan file, a request for the high-resolution channel
    never returns the two-window form; whatever it returns is the single
    extent of the lower window, the extent formula at the actual lower
    bounds of the trailer, the center point and the grid steps of the
    high-resolution channel and the offsets of the earth model; and it does
    return it whenever the earth model and the grid origin are supported. *)
Theorem rapid_scan_single_extent (self : NativeMSGFileHandler)
    (dataset_id : DatasetID) :
  is_rapid_scan_of self = true →
  name dataset_id = "HRV" →
  let b := HRV_bounds_of self in
  let g := ReferenceGridHRV (ImageDescription (data15hd (header self))) in
  let lower_extent ns_offset we_offset :=
    extent_formula (inject_Z HRV_NUM_COLUMNS / 2 - 2)%Q
      (inject_Z (LowerNorthLineActual b)) (inject_Z (LowerEastColumnActual b))
      (inject_Z (LowerSouthLineActual b)) (inject_Z (LowerWestColumnActual b))
      we_offset ns_offset
      (ColumnDirGridStep g * 1000.0)%Q (LineDirGridStep g * 1000.0)%Q in
  (∀ r, get_area_extent self dataset_id = Ok r →
        ∃ ns_offset we_offset,
          earth_model_offsets (earth_model_of self) dataset_id
            = Ok (ns_offset, we_offset)
          ∧ r = Extent (lower_extent ns_offset we_offset))
  ∧ (∀ upper lower un uc ln lc,
        get_area_extent self dataset_id
        ≠ Ok (Windows upper lower un uc ln lc))
  ∧ (∀ ns_offset we_offset,
        earth_model_offsets (earth_model_of self) dataset_id
          = Ok (ns_offset, we_offset) →
        GridOrigin g = 2 →
        get_area_extent self dataset_id
        = Ok (Extent (lower_extent ns_offset we_offset))).
Proof.
  intros Hrs Hname b g lower_extent.
  assert (Hrun : ∀ ns we,
    earth_model_offsets (earth_model_of self) dataset_id = Ok (ns, we) →
    get_area_extent self dataset_id
    = (_ ← check_grid_origin (GridOrigin g); Ok (Extent (lower_extent ns we)))).
  { intros ns we Hoff. unfold get_area_extent. fold (earth_model_of self).
    rewrite Hoff. cbn [mbind result_bind].
    unfold area_extent_from. rewrite grid_parameters_eq.
    unfold grid_of, center_of. rewrite !decide_True by exact Hname.
    fold g. destruct (check_grid_origin (GridOrigin g)); [|reflexivity].
    cbn [mbind result_bind]. fold (is_rapid_scan_of self). rewrite Hrs.
    rewrite bool_decide_eq_true_2 by exact Hname.
    rewrite orb_true_r. cbv zeta.
    rewrite _calculate_area_extent_formula. reflexivity. }
  assert (Hsingle : ∀ r, get_area_extent self dataset_id = Ok r →
    ∃ ns we, earth_model_offsets (earth_model_of self) dataset_id = Ok (ns, we)
             ∧ r = Extent (lower_extent ns we)).
  { intros r Hr.
    destruct (earth_model_offsets (earth_model_of self) dataset_id)
      as [[ns we]|e] eqn:Hoff.
    - rewrite (Hrun ns we eq_refl) in Hr. exists ns, we. split; [done|].
      destruct (check_grid_origin (GridOrigin g)); cbn in Hr; congruence.
    - unfold get_area_extent in Hr. fold (earth_model_of self) in Hr.
      rewrite Hoff in Hr. discriminate Hr. }
  repeat split.
  - exact Hsingle.
  - intros upper lower un uc ln lc Hr.
    destruct (Hsingle _ Hr) as (ns & we & _ & Habs). discriminate Habs.
  - intros ns we Hoff Hgrid. rewrite (Hrun ns we Hoff), Hgrid. reflexivity.
Qed.

End AreaExtentMore.

Lemma inject_Z_pos (n : Z) : 0 < n → (0 < inject_Z n)%Q.
Proof. intros Hn. unfold Qlt. simpl. lia. Qed.

(** C8, as amended: under earth model 2 (both offsets zero), with positive
    steps and a rectangle with north > south and west > east, the extent of
    the formula has its lower-left corner beyond its upper-right one:
    ll_col - ur_col and ll_row - ur_row are positive and equal to
    columns * col_step and rows * row_step. *)
Theorem extent_span (c : Q) (north east south west : Z) (col_step row_step : Q) :
  north > south → west > east →
  (0 < col_step)%Q → (0 < row_step)%Q →
  let e := _calculate_area_extent c north east south west 0 0 col_step row_step in
  (0 < ll_col e - ur_col e)%Q
  ∧ (ll_col e - ur_col e == inject_Z (ncolumns_of west east) * col_step)%Q
  ∧ (0 < ll_row e - ur_row e)%Q
  ∧ (ll_row e - ur_row e == inject_Z (nrows_of north south) * row_step)%Q.
Proof.
  intros Hns Hwe Hcs Hls e.
  assert (Hc : (ll_col e - ur_col e
                == inject_Z (ncolumns_of west east) * col_step)%Q).
  { unfold e, ncolumns_of, ll_col, ur_col, _calculate_area_extent. cbn [fst snd].
    unfold Z.sub. rewrite !inject_Z_plus, inject_Z_opp. ring. }
  assert (Hr : (ll_row e - ur_row e
                == inject_Z (nrows_of north south) * row_step)%Q).
  { unfold e, nrows_of, ll_row, ur_row, _calculate_area_extent. cbn [fst snd].
    unfold Z.sub. rewrite !inject_Z_plus, inject_Z_opp. ring. }
  repeat split; try assumption.
  - rewrite Hc. apply Qmult_lt_0_compat; [|assumption].
    apply inject_Z_pos. unfold ncolumns_of. lia.
  - rewrite Hr. apply Qmult_lt_0_compat; [|assumption].
    apply inject_Z_pos. unfold nrows_of. lia.
Qed.

(** ** Calibration *)

Lemma index_elem_of `{EqDecision A} (x : A) (l : list A) :
  x ∈ l → ∃ i, index x l = Ok i ∧ l !! i = Some x.
Proof.
  induction l as [|y l IH]; intros Hin.
  - by apply elem_of_nil in Hin.
  - cbn [index]. destruct (decide (y = x)) as [->|Hne].
    + exists 0%nat. split; reflexivity.
    + apply elem_of_cons in Hin as [->|Hin]; [congruence|].
      destruct (IH Hin) as (i & -> & Hi). exists (S i). split; [reflexivity|assumption].
Qed.

(** [upper] keeps a string ASCII or not: a mode that [upper] sends to
    'GSICS' or 'NOMINAL' is made of ASCII letters. *)
Lemma is_ascii_upper (s : string) : is_ascii (upper s) = is_ascii s.
Proof.
  induction s as [|c s IH]; [reflexivity|].
  cbn [upper is_ascii]. rewrite IH. f_equal.
  destruct c as [[] [] [] [] [] [] [] []]; reflexivity.
Qed.

Lemma upper_supported_is_ascii (mode : string) :
  upper mode = upper "gsics" ∨ upper mode = upper "nominal" →
  is_ascii mode = true.
Proof.
  intros Hmode. rewrite <- is_ascii_upper.
  destruct Hmode as [-> | ->]; reflexivity.
Qed.

Section Calibration.
Context `{SeviriBase} `{SEVIRICalibrationHandler}.

Lemma calibrate_above_counts self data dataset_id i :
  calibration dataset_id ∈ calibrated_levels →
  index (name dataset_id) CHANNEL_NAMES_values = Ok i →
  calibrate self data dataset_id
  = if bool_decide (upper (calib_mode self) ≠ "GSICS")
       && bool_decide (upper (calib_mode self) ≠ "NOMINAL")
    then Raise NotImplementedError
    else
      '(gain, offset) ← calibration_coefficients self (name dataset_id) i;
      r ← _convert_to_radiance data gain offset;
      res ← convert_level self dataset_id i (Some r);
      local res.
Proof.
  intros Hlevel Hi. unfold calibrate. rewrite Hi. cbn [mbind result_bind].
  rewrite decide_False.
  2:{ intros Hc. rewrite Hc in Hlevel. unfold calibrated_levels in Hlevel.
      repeat (apply elem_of_cons in Hlevel as [Hlevel|Hlevel];
              [discriminate Hlevel|]).
      by apply elem_of_nil in Hlevel. }
  fold calibrated_levels. rewrite decide_True by exact Hlevel.
  destruct (bool_decide (upper (calib_mode self) ≠ "GSICS")
            && bool_decide (upper (calib_mode self) ≠ "NOMINAL"));
    [reflexivity|].
  destruct (calibration_coefficients self (name dataset_id) i) as [[g o]|e];
    [|reflexivity].
  cbn [mbind result_bind fmap result_fmap].
  destruct (_convert_to_radiance data g o); reflexivity.
Qed.

(** C3: above counts level, with the mode 'gsics' in any letter case, a
    visible channel is calibrated with the gain and offset of the header
    calibration at position [i], any other channel with the GSICS gain at
    [i] and the GSICS offset at [i] multiplied by that gain; with the mode
    'nominal' every channel uses the header calibration at [i].  Here [i]
    is the position of the channel in the full channel table, and the
    result does not depend on the channels present in the file. *)
Theorem gsics_coefficients (self : NativeMSGFileHandler) (data : DataArray)
    (dataset_id : DatasetID) (i : nat) :
  calibration dataset_id ∈ calibrated_levels →
  index (name dataset_id) CHANNEL_NAMES_values = Ok i →
  let channel := name dataset_id in
  let rp := RadiometricProcessing (data15hd (header self)) in
  let nominal : result (Q * Q) :=
    gain ← array_get (CalSlope (Level15ImageCalibration rp)) i;
    offset ← array_get (CalOffset (Level15ImageCalibration rp)) i;
    Ok (gain, offset) in
  let alternate : result (Q * Q) :=
    gain ← array_get (GSICSCalCoeff (MPEFCalFeedback rp)) i;
    offset ← array_get (GSICSOffsetCount (MPEFCalFeedback rp)) i;
    Ok (gain, (offset * gain)%Q) in
  let run (coefficients : result (Q * Q)) : result DataArray :=
    '(gain, offset) ← coefficients;
    r ← _convert_to_radiance data gain offset;
    res ← convert_level self dataset_id i (Some r);
    local res in
  (upper (calib_mode self) = upper "gsics" →
     (channel ∈ VIS_CHANNELS → calibrate self data dataset_id = run nominal)
     ∧ (channel ∉ VIS_CHANNELS → calibrate self data dataset_id = run alternate))
  ∧ (upper (calib_mode self) = upper "nominal" →
     calibrate self data dataset_id = run nominal)
  ∧ (∀ m block,
       calibrate (with_file_content self m block) data dataset_id
       = calibrate self data dataset_id).
Proof.
  intros Hlevel Hi channel rp nominal alternate run.
  rewrite (calibrate_above_counts _ _ _ _ Hlevel Hi).
  split; [intros Hmode; split|split].
  - intros Hvis. change (upper "gsics") with "GSICS" in Hmode.
    rewrite (bool_decide_eq_false_2 (upper (calib_mode self) ≠ "GSICS"))
      by (intros Hc; exact (Hc Hmode)).
    cbn [andb]. unfold calibration_coefficients.
    rewrite (bool_decide_eq_true_2 _ Hvis), orb_true_r. reflexivity.
  - intros Hvis. change (upper "gsics") with "GSICS" in Hmode.
    rewrite (bool_decide_eq_false_2 (upper (calib_mode self) ≠ "GSICS"))
      by (intros Hc; exact (Hc Hmode)).
    cbn [andb]. unfold calibration_coefficients.
    rewrite (bool_decide_eq_false_2 (upper (calib_mode self) ≠ "GSICS"))
      by (intros Hc; exact (Hc Hmode)).
    rewrite (bool_decide_eq_false_2 _ Hvis). reflexivity.
  - intros Hmode. change (upper "nominal") with "NOMINAL" in Hmode.
    rewrite (bool_decide_eq_false_2 (upper (calib_mode self) ≠ "NOMINAL"))
      by (intros Hc; exact (Hc Hmode)).
    rewrite andb_false_r. unfold calibration_coefficients.
    rewrite (bool_decide_eq_true_2 (upper (calib_mode self) ≠ "GSICS"))
      by (rewrite Hmode; discriminate).
    reflexivity.
  - intros m block.
    rewrite (calibrate_above_counts _ _ _ _ Hlevel Hi). reflexivity.
Qed.


(** ** Datasets *)

(** C10: [get_dataset] hands to [calibrate] the array in which every sample
    equal to 0 has become the missing value and every other sample its own
    value, at every calibration level; so a counts request, which returns
    the calibrated data as they are, gives NaN at the zero samples and the
    sample itself elsewhere. *)
Theorem zero_samples_masked (self : NativeMSGFileHandler)
    (dataset_id : DatasetID) (dataset_info : DatasetInfo) :
  let mask (v : Z) := if decide (v = 0) then NaN else Val (inject_Z v) in
  get_dataset self dataset_id dataset_info
  = (data ← raw_data self dataset_id;
     dataset ← calibrate self (masked_DataArray data) dataset_id;
     Ok (set_attrs self dataset_info dataset))
  ∧ (∀ data, values (masked_DataArray data) = mask <$> flat data)
  ∧ (∀ data,
       raw_data self dataset_id = Ok data →
       name dataset_id ∈ CHANNEL_NAMES_values →
       calibration dataset_id = "counts" →
       ∃ dataset,
         get_dataset self dataset_id dataset_info = Ok dataset
         ∧ values dataset = mask <$> flat data
         ∧ ∀ k v, flat data !! k = Some v →
             values dataset !! k = Some (mask v)
             ∧ (v = 0 → values dataset !! k = Some NaN)
             ∧ (v ≠ 0 → values dataset !! k = Some (Val (inject_Z v)))).
Proof.
  intros mask.
  assert (Hmask : ∀ data, values (masked_DataArray data) = mask <$> flat data).
  { intros data. unfold masked_DataArray. cbn [values].
    apply list_fmap_ext. intros k v _. unfold where_nonzero, mask.
    destruct (decide (v = 0)) as [->|Hv].
    - rewrite decide_False by (intros Hc; exact (Hc eq_refl)). reflexivity.
    - rewrite decide_True by exact Hv. reflexivity. }
  split; [reflexivity|]. split; [exact Hmask|].
  intros data Hraw Hchan Hcounts.
  destruct (index_elem_of _ _ Hchan) as (i & Hi & _).
  exists (set_attrs self dataset_info (masked_DataArray data)).
  assert (Hv : values (set_attrs self dataset_info (masked_DataArray data))
               = mask <$> flat data) by (cbn [set_attrs values]; apply Hmask).
  split; [|split; [exact Hv|]].
  - unfold get_dataset. rewrite Hraw. cbn [mbind result_bind].
    unfold calibrate. rewrite Hi. cbn [mbind result_bind].
    rewrite decide_True by exact Hcounts. reflexivity.
  - intros k v Hk. rewrite Hv, list_lookup_fmap, Hk. cbn [fmap option_fmap option_map].
    unfold mask. repeat split.
    + intros ->. reflexivity.
    + intros Hne. rewrite decide_False by exact Hne. reflexivity.
Qed.

End Calibration.

(** ** Available channels *)

Lemma length_list_ascii_of_string (s : string) :
  length (list_ascii_of_string s) = String.length s.
Proof. induction s as [|c s IH]; cbn; [reflexivity|by rewrite IH]. Qed.

Lemma assoc_seq {V} (items : list (Z * V)) (k j : nat) :
  items.*1 = Z.of_nat <$> seq k (length items) →
  assoc (Z.of_nat (k + j)) items = items.*2 !! j.
Proof.
  revert k j. induction items as [|[k0 v] items IH]; intros k j Hkeys.
  - reflexivity.
  - cbn in Hkeys. injection Hkeys as -> Hkeys. cbn [assoc].
    destruct j as [|j].
    + rewrite Nat.add_0_r, decide_True by reflexivity. reflexivity.
    + rewrite decide_False by lia.
      replace (k + S j)%nat with (S k + j)%nat by lia.
      exact (IH (S k) j Hkeys).
Qed.

Lemma insert_all_notin names chars retv nm :
  nm ∉ names → insert_all names chars retv !! nm = retv !! nm.
Proof.
  revert chars retv. induction names as [|n names IH]; intros chars retv Hnm.
  - reflexivity.
  - destruct chars as [|c chars]; [reflexivity|]. cbn [insert_all].
    apply not_elem_of_cons in Hnm as [Hne Hnm].
    rewrite IH by exact Hnm. by rewrite lookup_insert_ne.
Qed.

Lemma insert_all_lookup names chars retv j nm c :
  NoDup names →
  names !! j = Some nm → chars !! j = Some c →
  insert_all names chars retv !! nm = Some (bool_decide (c = "X"%char)).
Proof.
  revert chars retv j.
  induction names as [|n names IH]; intros chars retv j Hnd Hn Hc.
  - discriminate Hn.
  - destruct chars as [|c0 chars]; [discriminate Hc|].
    apply NoDup_cons in Hnd as [Hfresh Hnd]. cbn [insert_all].
    destruct j as [|j]; cbn in Hn, Hc.
    + injection Hn as ->. injection Hc as ->.
      rewrite insert_all_notin by exact Hfresh. apply lookup_insert_eq.
    + exact (IH chars _ j Hnd Hn Hc).
Qed.

Lemma select_channels_marked available names chars :
  length names = length chars →
  (∀ j nm c, names !! j = Some nm → chars !! j = Some c →
             available !! nm = Some (bool_decide (c = "X"%char))) →
  select_channels available names = Ok (marked names chars).
Proof.
  revert chars. induction names as [|n names IH]; intros chars Hlen Hav.
  - reflexivity.
  - destruct chars as [|c chars]; [discriminate Hlen|].
    cbn [select_channels marked].
    rewrite (Hav 0%nat n c eq_refl eq_refl). cbn [getitem mbind result_bind].
    rewrite (IH chars).
    + cbn [mbind result_bind]. destruct (decide (c = "X"%char)) as [Hc|Hc].
      * rewrite (bool_decide_eq_true_2 _ Hc). reflexivity.
      * rewrite (bool_decide_eq_false_2 _ Hc). reflexivity.
    + cbn in Hlen. lia.
    + intros j nm c' Hn Hc. exact (Hav (S j) nm c' Hn Hc).
Qed.

Lemma length_marked names chars :
  length names = length chars →
  length (marked names chars) = length (filter (λ c, c = "X"%char) chars).
Proof.
  revert chars. induction names as [|n names IH]; intros chars Hlen.
  - destruct chars; [reflexivity|discriminate Hlen].
  - destruct chars as [|c chars]; [discriminate Hlen|].
    cbn [marked]. cbn in Hlen.
    destruct (decide (c = "X"%char)) as [Hc|Hc].
    + rewrite filter_cons_True by exact Hc. cbn. rewrite IH by lia. reflexivity.
    + rewrite filter_cons_False by exact Hc. apply IH. lia.
Qed.

Lemma marked_sublist names chars : marked names chars `sublist_of` names.
Proof.
  revert chars. induction names as [|n names IH]; intros chars.
  - constructor.
  - destruct chars as [|c chars]; [apply sublist_nil_l|]. cbn [marked].
    destruct (decide (c = "X"%char)).
    + apply sublist_skip, IH.
    + apply sublist_cons, IH.
Qed.

Section AvailableChannels.
Context `{SeviriBase}.

Lemma get_available_channels_loop_spec (m k : nat) (chars : list ascii) retv :
  CHANNEL_NAMES.*1 = Z.of_nat <$> seq 1 (length CHANNEL_NAMES) →
  length chars = m →
  (k + m ≤ length CHANNEL_NAMES_values)%nat →
  get_available_channels_loop (zip (seq k m) chars) retv
  = Ok (insert_all (drop k CHANNEL_NAMES_values) chars retv).
Proof.
  intros Hkeys. revert k chars retv.
  induction m as [|m IH]; intros k chars retv Hlen Hk.
  - destruct chars; [|discriminate Hlen]. cbn.
    destruct (drop k CHANNEL_NAMES_values); reflexivity.
  - destruct chars as [|c chars]; [discriminate Hlen|].
    cbn [seq zip zip_with get_available_channels_loop].
    unfold CHANNEL_NAMES_get.
    replace (Z.of_nat k + 1) with (Z.of_nat (1 + k)) by lia.
    rewrite (assoc_seq _ 1 k Hkeys). fold CHANNEL_NAMES_values.
    destruct (CHANNEL_NAMES_values !! k) as [nm|] eqn:Hnm.
    2:{ apply lookup_ge_None in Hnm. lia. }
    cbn [getitem mbind result_bind].
    rewrite (drop_S _ _ _ Hnm). cbn [insert_all].
    apply IH; [cbn in Hlen; lia|lia].
Qed.

(** C4: with the channel table keyed 1..12 by distinct names and a band
    selection of 12 characters, the channel of key [i] is marked available
    exactly when the character at position [i - 1] is 'X'; the channel list
    holds the names so marked, in the order of the table, as many as there
    are 'X' characters; and these are what [_read_header] stores. *)
Theorem available_channels_spec (header : Header) :
  CHANNEL_NAMES.*1 = Z.of_nat <$> seq 1 12 →
  NoDup CHANNEL_NAMES_values →
  String.length (SelectedBandIDs (sec15hd header)) = 12%nat →
  let chars := list_ascii_of_string (SelectedBandIDs (sec15hd header)) in
  ∃ (available : gmap string bool) (chans : list string),
    get_available_channels header = Ok available
    ∧ select_channels available CHANNEL_NAMES_values = Ok chans
    ∧ (∀ (i : nat) nm c,
         (1 ≤ i ≤ 12)%nat →
         CHANNEL_NAMES_get (Z.of_nat i) = Ok nm →
         chars !! (i - 1)%nat = Some c →
         available !! nm = Some (bool_decide (c = "X"%char))
         ∧ (available !! nm = Some true ↔ c = "X"%char))
    ∧ chans = marked CHANNEL_NAMES_values chars
    ∧ length chans = length (filter (λ c, c = "X"%char) chars)
    ∧ chans `sublist_of` CHANNEL_NAMES_values
    ∧ (∀ m pid, _read_header header = Ok (m, pid) →
         available_channels m = available ∧ channel_list m = chans).
Proof.
  intros Hkeys Hnd Hlen chars.
  assert (Hn : length CHANNEL_NAMES = 12%nat).
  { rewrite <- (length_fmap fst), Hkeys, length_fmap, length_seq. reflexivity. }
  assert (Hnv : length CHANNEL_NAMES_values = 12%nat).
  { unfold CHANNEL_NAMES_values. rewrite length_fmap. exact Hn. }
  assert (Hkeys' : CHANNEL_NAMES.*1 = Z.of_nat <$> seq 1 (length CHANNEL_NAMES))
    by (rewrite Hn; exact Hkeys).
  assert (Hchars : length chars = 12%nat).
  { unfold chars. rewrite length_list_ascii_of_string. exact Hlen. }
  set (available := insert_all CHANNEL_NAMES_values chars ∅).
  assert (Hget : get_available_channels header = Ok available).
  { unfold get_available_channels. fold chars.
    rewrite (get_available_channels_loop_spec 12 0 chars ∅ Hkeys' Hchars)
      by (rewrite Hnv; lia).
    reflexivity. }
  assert (Hav : ∀ j nm c, CHANNEL_NAMES_values !! j = Some nm →
                  chars !! j = Some c →
                  available !! nm = Some (bool_decide (c = "X"%char))).
  { intros j nm c Hj Hc. exact (insert_all_lookup _ _ _ j nm c Hnd Hj Hc). }
  assert (Hsel : select_channels available CHANNEL_NAMES_values
                 = Ok (marked CHANNEL_NAMES_values chars)).
  { apply select_channels_marked; [congruence|exact Hav]. }
  exists available, (marked CHANNEL_NAMES_values chars).
  split; [exact Hget|]. split; [exact Hsel|]. split; [|split; [reflexivity|]].
  - intros i nm c Hi Hnm Hc.
    unfold CHANNEL_NAMES_get in Hnm.
    replace i with (1 + (i - 1))%nat in Hnm by lia.
    rewrite (assoc_seq _ 1 (i - 1) Hkeys') in Hnm.
    fold CHANNEL_NAMES_values in Hnm.
    destruct (CHANNEL_NAMES_values !! (i - 1)%nat) as [nm'|] eqn:Hnm';
      [|discriminate Hnm].
    injection Hnm as ->. rewrite (Hav _ _ _ Hnm' Hc).
    split; [reflexivity|]. split.
    + intros Ht. injection Ht as Ht. by apply bool_decide_eq_true_1 in Ht.
    + intros Hx. by rewrite (bool_decide_eq_true_2 _ Hx).
  - split; [apply length_marked; congruence|].
    split; [apply marked_sublist|].
    intros m pid Hread. unfold _read_header in Hread.
    rewrite Hget in Hread. cbn [mbind result_bind] in Hread.
    rewrite Hsel in Hread. cbn [mbind result_bind] in Hread.
    destruct (getitem (SATNUM !! _)); [|discriminate Hread].
    cbn [mbind result_bind] in Hread. injection Hread as <- _.
    split; reflexivity.
Qed.

End AvailableChannels.

(** * Further properties *)

(** ** Reading the header *)

Lemma select_channels_inv available names chans :
  select_channels available names = Ok chans →
  chans `sublist_of` names
  ∧ (∀ nm, nm ∈ names → is_Some (available !! nm))
  ∧ (∀ nm, nm ∈ chans ↔ nm ∈ names ∧ available !! nm = Some true).
Proof.
  revert chans. induction names as [|n names IH]; intros chans Hsel.
  - injection Hsel as <-. split; [constructor|]. split.
    + intros nm Hnm. by apply elem_of_nil in Hnm.
    + intros nm. split; [intros Hnm|intros [Hnm _]];
        by apply elem_of_nil in Hnm.
  - cbn [select_channels] in Hsel.
    destruct (available !! n) as [b|] eqn:Hn; [|discriminate Hsel].
    cbn [getitem mbind result_bind] in Hsel.
    destruct (select_channels available names) as [rest|e]; [|discriminate Hsel].
    cbn [mbind result_bind] in Hsel. injection Hsel as <-.
    destruct (IH rest eq_refl) as (Hsub & Hkeys & Hmem).
    split; [|split].
    + destruct b; [by apply sublist_skip|by apply sublist_cons].
    + intros nm Hnm. apply elem_of_cons in Hnm as [->|Hnm];
        [by rewrite Hn|by apply Hkeys].
    + intros nm. destruct b.
      * rewrite !elem_of_cons, Hmem. split.
        -- intros [->|[Hin Hav]]; [by split; [left|]|by split; [right|]].
        -- intros [[->|Hin] Hav]; [by left|by right].
      * rewrite elem_of_cons, Hmem. split.
        -- intros [Hin Hav]. by split; [right|].
        -- intros [[->|Hin] Hav]; [congruence|done].
Qed.

Lemma select_channels_error available names e :
  select_channels available names = Raise e → e = KeyError.
Proof.
  induction names as [|n names IH]; intros Hsel; [discriminate Hsel|].
  cbn [select_channels] in Hsel.
  destruct (available !! n) as [b|]; cbn [getitem mbind result_bind] in Hsel;
    [|congruence].
  destruct (select_channels available names) as [rest|e'];
    cbn [mbind result_bind] in Hsel; [discriminate Hsel|].
  injection Hsel as <-. by apply IH.
Qed.

Lemma assoc_elem_of {V} (k : Z) (items : list (Z * V)) (v : V) :
  assoc k items = Some v → v ∈ items.*2.
Proof.
  induction items as [|[k' v'] items IH]; intros Hk; [discriminate Hk|].
  cbn [assoc] in Hk. cbn. destruct (decide (k' = k)).
  - injection Hk as ->. apply list_elem_of_here.
  - apply list_elem_of_further, IH, Hk.
Qed.

Lemma insert_all_take names chars retv :
  insert_all names chars retv
  = insert_all (take (length chars) names) chars retv.
Proof.
  revert chars retv. induction names as [|n names IH]; intros chars retv.
  - by rewrite take_nil.
  - destruct chars as [|c chars]; [reflexivity|]. cbn. apply IH.
Qed.

Lemma insert_all_take_chars names chars retv :
  insert_all names chars retv
  = insert_all names (take (length names) chars) retv.
Proof.
  revert chars retv. induction names as [|n names IH]; intros chars retv.
  - by destruct chars.
  - destruct chars as [|c chars]; [reflexivity|]. cbn. apply IH.
Qed.

Lemma padded_columns (n : Z) :
  let p := n + (if decide (n `mod` 4 > 0) then 4 - n `mod` 4 else 0) in
  p `mod` 4 = 0 ∧ n <= p < n + 4 ∧ (n `mod` 4 = 0 → p = n).
Proof.
  cbv zeta.
  pose proof (Z.mod_pos_bound n 4 eq_refl) as Hr.
  pose proof (Z.div_mod n 4) as Hd.
  destruct (decide (n `mod` 4 > 0)) as [Hpos|Hzero].
  - replace (n + (4 - n `mod` 4)) with ((n `div` 4 + 1) * 4) by lia.
    rewrite Z_mod_mult. lia.
  - rewrite Z.add_0_r. lia.
Qed.

Section ReadHeader.
Context `{SeviriBase}.

(** What a successful [_read_header] has computed. *)
Lemma _read_header_inv (header : Header) (m : Mda) (pid : Z) :
  _read_header header = Ok (m, pid) →
  let sec := sec15hd header in
  let ncolumns := ncolumns_of (WestColumnSelectedRectangle sec)
                    (EastColumnSelectedRectangle sec) in
  let nrows := nrows_of (NorthLineSelectedRectangle sec)
                 (SouthLineSelectedRectangle sec) in
  get_available_channels header = Ok (available_channels m)
  ∧ select_channels (available_channels m) CHANNEL_NAMES_values
    = Ok (channel_list m)
  ∧ pid = SatelliteId (SatelliteStatus (data15hd header))
  ∧ (∃ sat, SATNUM !! pid = Some sat
            ∧ platform_name m = ("Meteosat-" +:+ sat)%string)
  ∧ is_full_disk m
    = (if bool_decide (nrows < VISIR_NUM_LINES)
          || bool_decide (ncolumns < VISIR_NUM_COLUMNS)
       then false else true)
  ∧ number_of_columns m
    = ncolumns + (if decide (ncolumns `mod` 4 > 0)
                  then 4 - ncolumns `mod` 4 else 0)
  ∧ hrv_number_of_columns m
    = (if decide (ncolumns < VISIR_NUM_COLUMNS) then NumberColumnsHRV sec
       else NumberColumnsHRV sec `quot` 2)
  ∧ number_of_lines m = NumberLinesVISIR sec
  ∧ hrv_number_of_lines m = NumberLinesHRV sec.
Proof.
  intros Hread sec ncolumns nrows. unfold _read_header in Hread.
  destruct (get_available_channels header) as [available|e];
    [|discriminate Hread].
  cbn [mbind result_bind] in Hread.
  destruct (select_channels available CHANNEL_NAMES_values) as [chans|e] eqn:Hsel;
    [|discriminate Hread].
  cbn [mbind result_bind] in Hread.
  destruct (SATNUM !! SatelliteId (SatelliteStatus (data15hd header)))
    as [sat|] eqn:Hsat; [|discriminate Hread].
  cbn [getitem mbind result_bind] in Hread.
  injection Hread as <- <-. cbn.
  repeat (split; [try reflexivity|]); try reflexivity.
  - exact Hsel.
  - exists sat. split; [exact Hsat|reflexivity].
Qed.

(** The width of a line of a standard channel is the number of selected
    columns brought up to the next multiple of four. *)
Theorem read_header_padded_columns (header : Header) (m : Mda) (pid : Z) :
  _read_header header = Ok (m, pid) →
  let ncolumns :=
    ncolumns_of (WestColumnSelectedRectangle (sec15hd header))
      (EastColumnSelectedRectangle (sec15hd header)) in
  number_of_columns m `mod` 4 = 0
  ∧ ncolumns <= number_of_columns m < ncolumns + 4
  ∧ (ncolumns `mod` 4 = 0 → number_of_columns m = ncolumns).
Proof.
  intros Hread ncolumns.
  destruct (_read_header_inv _ _ _ Hread) as (_ & _ & _ & _ & _ & Hcols & _).
  fold ncolumns in Hcols. rewrite Hcols. apply padded_columns.
Qed.

(** The file counts as a full disk exactly when the selected rectangle has
    at least the lines and the columns of the full grid; the width of a
    line of the high-resolution channel is then half the header value
    (rounded towards zero) as long as that value is below 2^53 in absolute
    value, where the float division is exact, and the header value itself
    whenever the rectangle is narrower than the grid. *)
Theorem read_header_full_disk (header : Header) (m : Mda) (pid : Z) :
  _read_header header = Ok (m, pid) →
  let sec := sec15hd header in
  let ncolumns := ncolumns_of (WestColumnSelectedRectangle sec)
                    (EastColumnSelectedRectangle sec) in
  let nrows := nrows_of (NorthLineSelectedRectangle sec)
                 (SouthLineSelectedRectangle sec) in
  (is_full_disk m = true
   ↔ VISIR_NUM_LINES <= nrows ∧ VISIR_NUM_COLUMNS <= ncolumns)
  ∧ (is_full_disk m = true →
     Z.abs (NumberColumnsHRV sec) < 2 ^ 53 →
     hrv_number_of_columns m = NumberColumnsHRV sec `quot` 2)
  ∧ (ncolumns < VISIR_NUM_COLUMNS →
     hrv_number_of_columns m = NumberColumnsHRV sec).
Proof.
  intros Hread sec ncolumns nrows.
  destruct (_read_header_inv _ _ _ Hread)
    as (_ & _ & _ & _ & Hfd & _ & Hhrv & _).
  fold sec ncolumns nrows in Hfd, Hhrv. rewrite Hfd, Hhrv.
  repeat case_bool_decide; repeat case_decide; cbn; split_and!;
    try split; intros; try lia; try done.
Qed.

(** The two channel records of the metadata agree: the channel list holds
    exactly the names that are marked available, in the order of the
    channel table, and every name of the table has an entry. *)
Theorem read_header_channels_consistent (header : Header) (m : Mda) (pid : Z) :
  _read_header header = Ok (m, pid) →
  (∀ nm, nm ∈ channel_list m
         ↔ nm ∈ CHANNEL_NAMES_values ∧ available_channels m !! nm = Some true)
  ∧ (∀ nm, nm ∈ CHANNEL_NAMES_values → is_Some (available_channels m !! nm))
  ∧ channel_list m `sublist_of` CHANNEL_NAMES_values.
Proof.
  intros Hread.
  destruct (_read_header_inv _ _ _ Hread) as (_ & Hsel & _).
  destruct (select_channels_inv _ _ _ Hsel) as (Hsub & Hkeys & Hmem).
  split; [exact Hmem|]. split; [exact Hkeys|exact Hsub].
Qed.

(** Characters of the band selection after the twelfth are not looked at. *)
Theorem get_available_channels_first_twelve (header header' : Header) :
  take 12 (list_ascii_of_string (SelectedBandIDs (sec15hd header)))
  = take 12 (list_ascii_of_string (SelectedBandIDs (sec15hd header'))) →
  get_available_channels header = get_available_channels header'.
Proof.
  intros Htake. unfold get_available_channels. cbv zeta.
  rewrite <- (zip_with_take_r pair (seq 0 12)
                (list_ascii_of_string (SelectedBandIDs (sec15hd header)))).
  rewrite <- (zip_with_take_r pair (seq 0 12)
                (list_ascii_of_string (SelectedBandIDs (sec15hd header')))).
  rewrite length_seq, Htake. reflexivity.
Qed.

Lemma get_available_channels_loop_any (m k : nat) (chars : list ascii) retv :
  CHANNEL_NAMES.*1 = Z.of_nat <$> seq 1 (length CHANNEL_NAMES) →
  (k + m ≤ length CHANNEL_NAMES_values)%nat →
  get_available_channels_loop (zip (seq k m) chars) retv
  = Ok (insert_all (take m (drop k CHANNEL_NAMES_values)) chars retv).
Proof.
  intros Hkeys. revert k chars retv.
  induction m as [|m IH]; intros k chars retv Hk.
  - reflexivity.
  - destruct (CHANNEL_NAMES_values !! k) as [nm|] eqn:Hnm.
    2:{ apply lookup_ge_None in Hnm. lia. }
    rewrite (drop_S _ _ _ Hnm). cbn [take].
    destruct chars as [|c chars]; [reflexivity|].
    cbn [seq zip zip_with get_available_channels_loop insert_all].
    unfold CHANNEL_NAMES_get.
    replace (Z.of_nat k + 1) with (Z.of_nat (1 + k)) by lia.
    rewrite (assoc_seq _ 1 k Hkeys). fold CHANNEL_NAMES_values.
    rewrite Hnm. cbn [getitem mbind result_bind].
    apply IH. lia.
Qed.

Lemma get_available_channels_ok (header : Header) :
  CHANNEL_NAMES.*1 = Z.of_nat <$> seq 1 12 →
  get_available_channels header
  = Ok (insert_all CHANNEL_NAMES_values
          (list_ascii_of_string (SelectedBandIDs (sec15hd header))) ∅).
Proof.
  intros Hkeys.
  assert (Hn : length CHANNEL_NAMES = 12%nat).
  { rewrite <- (length_fmap fst), Hkeys, length_fmap, length_seq. reflexivity. }
  assert (Hnv : length CHANNEL_NAMES_values = 12%nat).
  { unfold CHANNEL_NAMES_values. rewrite length_fmap. exact Hn. }
  unfold get_available_channels. cbv zeta.
  rewrite get_available_channels_loop_any by (rewrite ?Hn, ?Hnv; done).
  rewrite drop_0, take_ge by lia. reflexivity.
Qed.

Lemma insert_all_keys names chars retv nm :
  is_Some (insert_all names chars retv !! nm) →
  nm ∈ take (length chars) names ∨ is_Some (retv !! nm).
Proof.
  revert chars retv. induction names as [|n names IH]; intros chars retv Hnm.
  - destruct chars; right; exact Hnm.
  - destruct chars as [|c chars]; [right; exact Hnm|].
    cbn [insert_all] in Hnm. cbn [length take].
    destruct (IH _ _ Hnm) as [Hin|Hins].
    + left. by apply list_elem_of_further.
    + destruct (decide (n = nm)) as [->|Hne].
      * left. apply list_elem_of_here.
      * right. by rewrite lookup_insert_ne in Hins.
Qed.

Lemma get_available_channels_loop_keys pairs retv available nm :
  get_available_channels_loop pairs retv = Ok available →
  is_Some (available !! nm) →
  nm ∈ CHANNEL_NAMES_values ∨ is_Some (retv !! nm).
Proof.
  revert retv. induction pairs as [|[idx c] pairs IH]; intros retv Hloop Hnm.
  - injection Hloop as <-. by right.
  - cbn [get_available_channels_loop] in Hloop.
    unfold CHANNEL_NAMES_get in Hloop.
    destruct (assoc (Z.of_nat idx + 1) CHANNEL_NAMES) as [key|] eqn:Hkey;
      [|discriminate Hloop].
    cbn [getitem mbind result_bind] in Hloop.
    destruct (IH _ Hloop Hnm) as [Hin|Hins]; [by left|].
    destruct (decide (key = nm)) as [<-|Hne].
    + left. exact (assoc_elem_of _ _ _ Hkey).
    + right. by rewrite lookup_insert_ne in Hins.
Qed.

Lemma select_channels_short (names : list string) (chars : list ascii) :
  NoDup names → (length chars < length names)%nat →
  select_channels (insert_all names chars ∅) names = Raise KeyError.
Proof.
  intros Hnd Hlen.
  destruct (select_channels (insert_all names chars ∅) names)
    as [chans|e] eqn:Hsel.
  - exfalso. destruct (select_channels_inv _ _ _ Hsel) as (_ & Hall & _).
    destruct (names !! length chars) as [nm|] eqn:Hnm.
    2:{ apply lookup_ge_None in Hnm. lia. }
    assert (Hin : nm ∈ names) by (apply list_elem_of_lookup; eauto).
    destruct (insert_all_keys _ _ _ _ (Hall nm Hin)) as [Htake|Hempty].
    + apply list_elem_of_lookup in Htake as [j Hj].
      apply lookup_take_Some in Hj as [Hj Hlt].
      pose proof (NoDup_lookup _ _ _ _ Hnd Hj Hnm). lia.
    + rewrite lookup_empty in Hempty. by destruct Hempty.
  - apply select_channels_error in Hsel as ->. reflexivity.
Qed.

(** With the channel table keyed 1..12 by distinct names: [_read_header]
    returns only if the band selection has at least twelve characters and
    the satellite id is in [SATNUM]; the platform id it leaves is the
    satellite id, the platform name is 'Meteosat-' followed by the
    satellite number, and the channel list holds the names whose character
    among the first twelve is 'X', in table order. *)
Theorem read_header_returns_only_if (header : Header) (m : Mda) (pid : Z) :
  CHANNEL_NAMES.*1 = Z.of_nat <$> seq 1 12 →
  NoDup CHANNEL_NAMES_values →
  _read_header header = Ok (m, pid) →
  (12 ≤ String.length (SelectedBandIDs (sec15hd header)))%nat
  ∧ pid = SatelliteId (SatelliteStatus (data15hd header))
  ∧ (∃ sat, SATNUM !! pid = Some sat
            ∧ platform_name m = ("Meteosat-" +:+ sat)%string)
  ∧ channel_list m
    = marked CHANNEL_NAMES_values
        (take 12 (list_ascii_of_string (SelectedBandIDs (sec15hd header)))).
Proof.
  intros Hkeys Hnd Hread.
  set (chars := list_ascii_of_string (SelectedBandIDs (sec15hd header))).
  assert (Hn : length CHANNEL_NAMES_values = 12%nat).
  { unfold CHANNEL_NAMES_values.
    rewrite length_fmap, <- (length_fmap fst), Hkeys, length_fmap, length_seq.
    reflexivity. }
  destruct (_read_header_inv _ _ _ Hread) as (Hget & Hsel & Hpid & Hsat & _).
  rewrite (get_available_channels_ok _ Hkeys) in Hget. fold chars in Hget.
  injection Hget as Hav. rewrite <- Hav in Hsel.
  assert (Hlen : (12 ≤ length chars)%nat).
  { destruct (decide (12 ≤ length chars)%nat) as [Hle|Hlt]; [exact Hle|].
    rewrite select_channels_short in Hsel;
      [discriminate Hsel|exact Hnd|rewrite Hn; lia]. }
  split; [unfold chars in Hlen; by rewrite length_list_ascii_of_string in Hlen|].
  split; [exact Hpid|]. split; [exact Hsat|].
  rewrite (insert_all_take_chars _ chars), Hn in Hsel.
  rewrite (select_channels_marked _ _ (take 12 chars)) in Hsel.
  - by injection Hsel as <-.
  - rewrite length_take. lia.
  - intros j nm c Hj Hc. exact (insert_all_lookup _ _ _ j nm c Hnd Hj Hc).
Qed.

(** With the same channel table: a band selection of fewer than twelve
    characters, or a satellite id that [SATNUM] does not hold, makes
    [_read_header] raise [KeyError]. *)
Theorem read_header_KeyError (header : Header) :
  CHANNEL_NAMES.*1 = Z.of_nat <$> seq 1 12 →
  NoDup CHANNEL_NAMES_values →
  (String.length (SelectedBandIDs (sec15hd header)) < 12)%nat
  ∨ SATNUM !! SatelliteId (SatelliteStatus (data15hd header)) = None →
  _read_header header = Raise KeyError.
Proof.
  intros Hkeys Hnd Hbad.
  set (chars := list_ascii_of_string (SelectedBandIDs (sec15hd header))).
  assert (Hn : length CHANNEL_NAMES_values = 12%nat).
  { unfold CHANNEL_NAMES_values.
    rewrite length_fmap, <- (length_fmap fst), Hkeys, length_fmap, length_seq.
    reflexivity. }
  unfold _read_header. rewrite (get_available_channels_ok _ Hkeys). fold chars.
  cbn [mbind result_bind].
  destruct (select_channels (insert_all CHANNEL_NAMES_values chars ∅)
              CHANNEL_NAMES_values) as [chans|e] eqn:Hsel.
  - cbn [mbind result_bind].
    destruct (SATNUM !! SatelliteId (SatelliteStatus (data15hd header)))
      as [sat|] eqn:Hsat; [|reflexivity].
    exfalso. destruct Hbad as [Hshort|Hnone]; [|discriminate Hnone].
    destruct (select_channels_inv _ _ _ Hsel) as (_ & Hall & _).
    assert (Hlen : (length chars < 12)%nat)
      by (unfold chars; rewrite length_list_ascii_of_string; exact Hshort).
    destruct (CHANNEL_NAMES_values !! length chars) as [nm|] eqn:Hnm.
    2:{ apply lookup_ge_None in Hnm. lia. }
    assert (Hin : nm ∈ CHANNEL_NAMES_values)
      by (apply list_elem_of_lookup; eauto).
    destruct (insert_all_keys _ _ _ _ (Hall nm Hin)) as [Htake|Hempty].
    + apply list_elem_of_lookup in Htake as [j Hj].
      apply lookup_take_Some in Hj as [Hj Hlt].
      pose proof (NoDup_lookup _ _ _ _ Hnd Hj Hnm). lia.
    + rewrite lookup_empty in Hempty. by destruct Hempty.
  - apply select_channels_error in Hsel as ->. reflexivity.
Qed.

End ReadHeader.

(** ** Calibration, further *)

Lemma index_not_elem_of `{EqDecision A} (x : A) (l : list A) :
  x ∉ l → index x l = Raise ValueError.
Proof.
  induction l as [|y l IH]; intros Hx; [reflexivity|].
  apply not_elem_of_cons in Hx as [Hne Hx]. cbn [index].
  rewrite decide_False by congruence. by rewrite IH.
Qed.

Lemma result_bind_Ok {A B} (m : result A) (f : A → result B) (b : B) :
  m ≫= f = Ok b → ∃ a, m = Ok a ∧ f a = Ok b.
Proof. destruct m as [a|e]; [eauto|discriminate]. Qed.

Section CalibrationMore.
Context `{SeviriBase} `{SEVIRICalibrationHandler}.

(** A calibration level other than the four known ones never yields data:
    for a channel of the table the request ends in [UnboundLocalError],
    whatever the calibration mode. *)
Theorem calibrate_unknown_level (self : NativeMSGFileHandler)
    (data : DataArray) (dataset_id : DatasetID) :
  name dataset_id ∈ CHANNEL_NAMES_values →
  calibration dataset_id ≠ "counts" →
  calibration dataset_id ∉ calibrated_levels →
  calibrate self data dataset_id = Raise UnboundLocalError.
Proof.
  intros Hchan Hcounts Hlevel.
  destruct (index_elem_of _ _ Hchan) as (i & Hi & _).
  unfold calibrate. rewrite Hi. cbn [mbind result_bind].
  rewrite decide_False by exact Hcounts.
  fold calibrated_levels. rewrite decide_False by exact Hlevel.
  cbn [mbind result_bind]. unfold convert_level.
  rewrite !decide_False; [reflexivity|..]; intros Hc; apply Hlevel;
    rewrite Hc; unfold calibrated_levels;
    repeat first [apply list_elem_of_here | apply list_elem_of_further].
Qed.

(** A channel name that is not in the channel table makes every request
    raise [ValueError], a counts request included. *)
Theorem calibrate_unknown_channel (self : NativeMSGFileHandler)
    (data : DataArray) (dataset_id : DatasetID) :
  name dataset_id ∉ CHANNEL_NAMES_values →
  calibrate self data dataset_id = Raise ValueError.
Proof.
  intros Hchan. unfold calibrate.
  rewrite (index_not_elem_of _ _ Hchan). reflexivity.
Qed.

(** For a visible channel the two supported calibration modes give the same
    result at every level. *)
Theorem calibrate_visible_mode_independent (self : NativeMSGFileHandler)
    (data : DataArray) (dataset_id : DatasetID) (mode mode' : string) :
  upper mode = upper "gsics" ∨ upper mode = upper "nominal" →
  upper mode' = upper "gsics" ∨ upper mode' = upper "nominal" →
  name dataset_id ∈ VIS_CHANNELS →
  calibrate (with_calib_mode self mode) data dataset_id
  = calibrate (with_calib_mode self mode') data dataset_id.
Proof.
  intros Hm Hm' Hvis.
  assert (Hgen : ∀ md, upper md = upper "gsics" ∨ upper md = upper "nominal" →
    calibrate (with_calib_mode self md) data dataset_id
    = calibrate (with_calib_mode self "nominal") data dataset_id).
  { intros md Hmd. unfold calibrate, calibration_coefficients, convert_level.
    cbn [with_calib_mode calib_mode header platform_id].
    rewrite (bool_decide_eq_true_2 _ Hvis), !orb_true_r.
    replace (bool_decide (upper md ≠ "GSICS") && bool_decide (upper md ≠ "NOMINAL"))
      with false.
    { reflexivity. }
    symmetry. apply andb_false_iff.
    destruct Hmd as [Hmd|Hmd]; [left|right];
      apply bool_decide_eq_false_2; intros Hc; exact (Hc Hmd). }
  rewrite (Hgen mode Hm), (Hgen mode' Hm'). reflexivity.
Qed.

(** A reflectance request returns nothing when [CALIB] has no solar
    irradiance ["F"] for the platform and the channel. *)
Theorem calibrate_reflectance_needs_irradiance (self : NativeMSGFileHandler)
    (data : DataArray) (dataset_id : DatasetID) :
  calibration dataset_id = "reflectance" →
  solar_irradiance_of (platform_id self) (name dataset_id) = None →
  ∀ dataset, calibrate self data dataset_id ≠ Ok dataset.
Proof.
  intros Hlevel Hf dataset Hrun. unfold calibrate in Hrun.
  apply result_bind_Ok in Hrun as (i & _ & Hrun).
  rewrite decide_False in Hrun by (rewrite Hlevel; discriminate).
  apply result_bind_Ok in Hrun as (res & _ & Hrun).
  apply result_bind_Ok in Hrun as (res' & Hconv & _).
  unfold convert_level in Hconv.
  rewrite decide_True in Hconv by exact Hlevel.
  unfold solar_irradiance_of in Hf.
  destruct (CALIB !! platform_id self) as [p|]; [|discriminate Hconv].
  cbn [getitem mbind result_bind] in Hconv.
  destruct (p !! name dataset_id) as [c|]; [|discriminate Hconv].
  cbn [getitem mbind result_bind] in Hconv.
  rewrite Hf in Hconv. discriminate Hconv.
Qed.

End CalibrationMore.

(** ** Area extent, further *)

Lemma extent_span_offsets c north east south west we ns cs ls :
  let e := _calculate_area_extent c north east south west we ns cs ls in
  (ll_col e - ur_col e == inject_Z (ncolumns_of west east) * cs)%Q
  ∧ (ll_row e - ur_row e == inject_Z (nrows_of north south) * ls)%Q.
Proof.
  unfold ncolumns_of, nrows_of, ll_col, ur_col, ll_row, ur_row,
    _calculate_area_extent. cbn [fst snd].
  unfold Z.sub. rewrite !inject_Z_plus, !inject_Z_opp. split; ring.
Qed.

Lemma extent_shift_offsets c north east south west we ns cs ls :
  extent_eq (_calculate_area_extent c north east south west we ns cs ls)
    (shift_extent (we * cs) (ns * ls)
       (_calculate_area_extent c north east south west 0 0 cs ls)).
Proof.
  unfold extent_eq, shift_extent, ll_col, ur_col, ll_row, ur_row,
    _calculate_area_extent. cbn [fst snd]. repeat split; ring.
Qed.

Section AreaExtentFurther.
Context `{SeviriBase}.

Lemma area_extent_from_eq (self : NativeMSGFileHandler)
    (dataset_id : DatasetID) (ns_offset we_offset : Q) :
  area_extent_from self dataset_id ns_offset we_offset
  = (_ ← check_grid_origin (GridOrigin (grid_of self dataset_id));
     let c := center_of dataset_id in
     let cs := (ColumnDirGridStep (grid_of self dataset_id) * 1000.0)%Q in
     let ls := (LineDirGridStep (grid_of self dataset_id) * 1000.0)%Q in
     let sec := sec15hd (header self) in
     let b := HRV_bounds_of self in
     let k := if decide (name dataset_id = "HRV") then 3 else 1 in
     if bool_decide (name dataset_id = "HRV")
        && (is_full_disk (mda self) || is_rapid_scan_of self)
     then
       let lower :=
         _calculate_area_extent c (LowerNorthLineActual b)
           (LowerEastColumnActual b) (LowerSouthLineActual b)
           (LowerWestColumnActual b) we_offset ns_offset cs ls in
       if is_rapid_scan_of self then Ok (Extent lower)
       else
         Ok (Windows
               (_calculate_area_extent c (UpperNorthLineActual b)
                  (UpperEastColumnActual b) (UpperSouthLineActual b)
                  (UpperWestColumnActual b) we_offset ns_offset cs ls)
               lower
               (UpperNorthLineActual b - UpperSouthLineActual b + 1)
               (UpperWestColumnActual b - UpperEastColumnActual b + 1)
               (LowerNorthLineActual b - LowerSouthLineActual b + 1)
               (LowerWestColumnActual b - LowerEastColumnActual b + 1))
     else
       Ok (Extent (_calculate_area_extent c
                     (k * NorthLineSelectedRectangle sec)
                     (k * EastColumnSelectedRectangle sec)
                     (k * SouthLineSelectedRectangle sec)
                     (k * WestColumnSelectedRectangle sec)
                     we_offset ns_offset cs ls))).
Proof.
  unfold area_extent_from. rewrite grid_parameters_eq. reflexivity.
Qed.

(** The extent of a standard channel depends on the header alone: neither
    the trailer nor the metadata of the handler take part. *)
Theorem standard_extent_ignores_trailer (self : NativeMSGFileHandler)
    (dataset_id : DatasetID) (t : Trailer) (m : Mda) :
  name dataset_id ≠ "HRV" →
  get_area_extent (with_trailer_mda self t m) dataset_id
  = get_area_extent self dataset_id.
Proof.
  intros Hname. unfold get_area_extent.
  cbn [with_trailer_mda header].
  destruct (earth_model_offsets _ dataset_id) as [[ns we]|e]; [|reflexivity].
  cbn [mbind result_bind]. rewrite !area_extent_from_eq.
  rewrite (bool_decide_eq_false_2 _ Hname). reflexivity.
Qed.

(** [get_area_extent] returns exactly when the earth model is 1 or 2 and
    the grid origin of the channel is 2; it raises [KeyError] exactly when
    the earth model is 1 or 2 and the grid origin is none of 0, 1, 2, 3, and
    [NotImplementedError] in all other cases. *)
Theorem get_area_extent_outcomes (self : NativeMSGFileHandler)
    (dataset_id : DatasetID) :
  let em := earth_model_of self in
  let origin := GridOrigin (grid_of self dataset_id) in
  ((∃ r, get_area_extent self dataset_id = Ok r)
   ↔ (em = 1 ∨ em = 2) ∧ origin = 2)
  ∧ (get_area_extent self dataset_id = Raise KeyError
     ↔ (em = 1 ∨ em = 2) ∧ origin ∉ [0; 1; 2; 3])
  ∧ (get_area_extent self dataset_id = Raise NotImplementedError
     ↔ ¬ (em = 1 ∨ em = 2) ∨ origin ∈ [0; 1; 3]).
Proof.
  intros em origin.
  assert (Hmem3 : origin ∈ [0; 1; 3] ↔ origin = 0 ∨ origin = 1 ∨ origin = 3).
  { rewrite !elem_of_cons, elem_of_nil. tauto. }
  assert (Hmem4 : origin ∈ [0; 1; 2; 3]
                  ↔ origin = 0 ∨ origin = 1 ∨ origin = 2 ∨ origin = 3).
  { rewrite !elem_of_cons, elem_of_nil. tauto. }
  assert (Hres : (¬ (em = 1 ∨ em = 2)
                  ∧ get_area_extent self dataset_id = Raise NotImplementedError)
                 ∨ ((em = 1 ∨ em = 2) ∧ origin = 2
                    ∧ ∃ r, get_area_extent self dataset_id = Ok r)
                 ∨ ((em = 1 ∨ em = 2) ∧ origin ∈ [0; 1; 3]
                    ∧ get_area_extent self dataset_id = Raise NotImplementedError)
                 ∨ ((em = 1 ∨ em = 2) ∧ (origin ∉ [0; 1; 2; 3])
                    ∧ get_area_extent self dataset_id = Raise KeyError)).
  { unfold get_area_extent. fold (earth_model_of self). fold em.
    destruct (earth_model_offsets em dataset_id) as [[ns we]|e] eqn:Hoff.
    - assert (Hem : em = 1 ∨ em = 2).
      { unfold earth_model_offsets in Hoff. repeat case_decide; auto;
          discriminate Hoff. }
      right. cbn [mbind result_bind]. rewrite area_extent_from_eq.
      fold origin. rewrite check_grid_origin_cases.
      destruct (decide (origin = 2)) as [Ho|Ho].
      + left. split; [exact Hem|]. split; [exact Ho|].
        cbn [mbind result_bind]. cbv zeta.
        repeat match goal with |- context [if ?c then _ else _] =>
                 destruct c end; eauto.
      + right. destruct (decide (origin ∈ [0; 1; 3])) as [Ho3|Ho3].
        * left. auto.
        * right. split; [exact Hem|]. split; [|reflexivity].
          rewrite Hmem4. rewrite Hmem3 in Ho3. lia.
    - left. unfold earth_model_offsets in Hoff.
      repeat case_decide; try discriminate Hoff.
      injection Hoff as <-. split; [lia|reflexivity]. }
  rewrite Hmem3 in Hres. rewrite Hmem4 in Hres. rewrite Hmem3, Hmem4.
  clear Hmem3 Hmem4.
  destruct Hres as [[Hem Hr]|[(Hem & Ho & r & Hr)|[(Hem & Ho & Hr)|(Hem & Ho & Hr)]]];
    rewrite Hr; (split; [|split]); split; intros Hx;
    first [ discriminate Hx
          | match type of Hx with
            | ex _ => destruct Hx as [r' Hx]; discriminate Hx
            end
          | reflexivity
          | exfalso; lia
          | lia
          | eauto ].
Qed.

(** When [get_area_extent] returns two windows, each comes with its number
    of lines and columns, counted from the actual bounds of the trailer, and
    each extent spans exactly that many grid steps. *)
Theorem hrv_windows_span (self : NativeMSGFileHandler) (dataset_id : DatasetID)
    (upper lower : AreaExtent) (upper_nlines upper_ncols lower_nlines lower_ncols : Z) :
  get_area_extent self dataset_id
  = Ok (Windows upper lower upper_nlines upper_ncols lower_nlines lower_ncols) →
  let b := HRV_bounds_of self in
  let cs := (ColumnDirGridStep (grid_of self dataset_id) * 1000.0)%Q in
  let ls := (LineDirGridStep (grid_of self dataset_id) * 1000.0)%Q in
  upper_nlines = UpperNorthLineActual b - UpperSouthLineActual b + 1
  ∧ upper_ncols = UpperWestColumnActual b - UpperEastColumnActual b + 1
  ∧ lower_nlines = LowerNorthLineActual b - LowerSouthLineActual b + 1
  ∧ lower_ncols = LowerWestColumnActual b - LowerEastColumnActual b + 1
  ∧ (ll_row upper - ur_row upper == inject_Z upper_nlines * ls)%Q
  ∧ (ll_col upper - ur_col upper == inject_Z upper_ncols * cs)%Q
  ∧ (ll_row lower - ur_row lower == inject_Z lower_nlines * ls)%Q
  ∧ (ll_col lower - ur_col lower == inject_Z lower_ncols * cs)%Q.
Proof.
  intros Hget b cs ls. unfold get_area_extent in Hget.
  apply result_bind_Ok in Hget as ([ns we] & _ & Hget).
  rewrite area_extent_from_eq in Hget.
  apply result_bind_Ok in Hget as (_ & _ & Hget). cbv zeta in Hget.
  fold b cs ls in Hget.
  destruct (bool_decide (name dataset_id = "HRV")
            && (is_full_disk (mda self) || is_rapid_scan_of self));
    [|discriminate Hget].
  destruct (is_rapid_scan_of self); [discriminate Hget|].
  injection Hget as <- <- <- <- <- <-.
  destruct (extent_span_offsets (center_of dataset_id)
              (UpperNorthLineActual b) (UpperEastColumnActual b)
              (UpperSouthLineActual b) (UpperWestColumnActual b)
              we ns cs ls) as [Huc Hur].
  destruct (extent_span_offsets (center_of dataset_id)
              (LowerNorthLineActual b) (LowerEastColumnActual b)
              (LowerSouthLineActual b) (LowerWestColumnActual b)
              we ns cs ls) as [Hlc Hlr].
  repeat (split; [reflexivity|]).
  split; [exact Hur|]. split; [exact Huc|]. split; [exact Hlr|exact Hlc].
Qed.

(** The offsets of the earth model move the extent as a whole: compared
    with the request run with both offsets 0, every extent is shifted by
    [we_offset] column steps and [ns_offset] line steps, the window sizes
    are the same, and so are the errors. *)
Theorem offsets_shift_extent (self : NativeMSGFileHandler)
    (dataset_id : DatasetID) (ns_offset we_offset : Q) :
  let cs := (ColumnDirGridStep (grid_of self dataset_id) * 1000.0)%Q in
  let ls := (LineDirGridStep (grid_of self dataset_id) * 1000.0)%Q in
  let shifted := shift_extent (we_offset * cs) (ns_offset * ls) in
  match area_extent_from self dataset_id 0 0,
        area_extent_from self dataset_id ns_offset we_offset with
  | Ok (Extent e0), Ok (Extent e) => extent_eq e (shifted e0)
  | Ok (Windows u0 l0 un0 uc0 ln0 lc0), Ok (Windows u l un uc ln lc) =>
      extent_eq u (shifted u0) ∧ extent_eq l (shifted l0)
      ∧ (un, uc, ln, lc) = (un0, uc0, ln0, lc0)
  | Raise e0, Raise e => e0 = e
  | _, _ => False
  end.
Proof.
  intros cs ls shifted. rewrite !area_extent_from_eq. fold cs ls.
  destruct (check_grid_origin _); cbn [mbind result_bind]; [|reflexivity].
  destruct (bool_decide (name dataset_id = "HRV")
            && (is_full_disk (mda self) || is_rapid_scan_of self)).
  - destruct (is_rapid_scan_of self).
    + apply extent_shift_offsets.
    + split; [apply extent_shift_offsets|].
      split; [apply extent_shift_offsets|reflexivity].
  - apply extent_shift_offsets.
Qed.

(** The full disk of a standard channel, with the south-east origin: under
    earth model 1 the extent is centred, half the grid on each side; under
    earth model 2 it reaches half a step less to the east and south and
    half a step more to the west and north. *)
Theorem full_disk_standard_extent (self : NativeMSGFileHandler)
    (dataset_id : DatasetID) :
  name dataset_id ≠ "HRV" →
  GridOrigin (ReferenceGridVIS_IR (ImageDescription (data15hd (header self)))) = 2 →
  NorthLineSelectedRectangle (sec15hd (header self)) = VISIR_NUM_COLUMNS →
  WestColumnSelectedRectangle (sec15hd (header self)) = VISIR_NUM_COLUMNS →
  SouthLineSelectedRectangle (sec15hd (header self)) = 1 →
  EastColumnSelectedRectangle (sec15hd (header self)) = 1 →
  let g := ReferenceGridVIS_IR (ImageDescription (data15hd (header self))) in
  let cs := (ColumnDirGridStep g * 1000.0)%Q in
  let ls := (LineDirGridStep g * 1000.0)%Q in
  let half := (inject_Z VISIR_NUM_COLUMNS / 2)%Q in
  (earth_model_of self = 1 →
   ∃ e, get_area_extent self dataset_id = Ok (Extent e)
     ∧ extent_eq e (half * cs, half * ls, - half * cs, - half * ls)%Q)
  ∧ (earth_model_of self = 2 →
   ∃ e, get_area_extent self dataset_id = Ok (Extent e)
     ∧ extent_eq e ((half - 0.5) * cs, (half + 0.5) * ls,
                    - (half + 0.5) * cs, - (half - 0.5) * ls)%Q).
Proof.
  intros Hname Hgrid Hn Hw Hs He g cs ls half.
  assert (Hrun : ∀ ns we,
    earth_model_offsets (earth_model_of self) dataset_id = Ok (ns, we) →
    get_area_extent self dataset_id
    = Ok (Extent (_calculate_area_extent half
                    (1 * VISIR_NUM_COLUMNS) (1 * 1) (1 * 1)
                    (1 * VISIR_NUM_COLUMNS) we ns cs ls))).
  { intros ns we Hoff. unfold get_area_extent. fold (earth_model_of self).
    rewrite Hoff. cbn [mbind result_bind]. rewrite area_extent_from_eq.
    unfold grid_of, center_of. rewrite !decide_False by exact Hname.
    rewrite Hgrid. fold g. change (check_grid_origin 2) with (Ok tt).
    cbn [mbind result_bind].
    rewrite (bool_decide_eq_false_2 _ Hname). cbn [andb].
    cbv zeta. rewrite Hn, Hw, Hs, He. reflexivity. }
  split; intros Hem; eexists; (split; [apply Hrun|]).
  - unfold earth_model_offsets. rewrite Hem.
    rewrite decide_False by discriminate. rewrite decide_True by reflexivity.
    rewrite decide_False by exact Hname. reflexivity.
  - unfold extent_eq, ll_col, ll_row, ur_col, ur_row, _calculate_area_extent.
    cbn [fst snd]. rewrite !Z.mul_1_l. change (inject_Z 1) with 1%Q.
    fold half. unfold half. repeat split; field.
  - unfold earth_model_offsets. rewrite Hem.
    rewrite decide_True by reflexivity. reflexivity.
  - unfold extent_eq, ll_col, ll_row, ur_col, ur_row, _calculate_area_extent.
    cbn [fst snd]. rewrite !Z.mul_1_l. change (inject_Z 1) with 1%Q.
    unfold half. repeat split; field.
Qed.

End AreaExtentFurther.

(** ** Area definitions *)

Ltac lookup_pdict :=
  repeat first [ rewrite lookup_insert_eq
               | rewrite lookup_insert_ne by discriminate ];
  reflexivity.

Section AreaDefinition.
Context `{SeviriBase} `{GeosArea}.

Lemma windows_need_full_disk (self : NativeMSGFileHandler)
    (dataset_id : DatasetID) upper lower un uc ln lc :
  get_area_extent self dataset_id = Ok (Windows upper lower un uc ln lc) →
  name dataset_id = "HRV" ∧ is_full_disk (mda self) = true
  ∧ is_rapid_scan_of self = false.
Proof.
  intros Hget. unfold get_area_extent in Hget.
  apply result_bind_Ok in Hget as ([ns we] & _ & Hget).
  rewrite area_extent_from_eq in Hget.
  apply result_bind_Ok in Hget as (_ & _ & Hget). cbv zeta in Hget.
  destruct (decide (name dataset_id = "HRV")) as [Hn|Hn].
  - rewrite (bool_decide_eq_true_2 _ Hn) in Hget. cbn [andb] in Hget.
    destruct (is_rapid_scan_of self).
    + rewrite orb_true_r in Hget. discriminate Hget.
    + rewrite orb_false_r in Hget.
      destruct (is_full_disk (mda self)); [auto|discriminate Hget].
  - rewrite (bool_decide_eq_false_2 _ Hn) in Hget. discriminate Hget.
Qed.

(** An error of [get_area_extent] is the error of [get_area_def]: no area
    is built from a request whose extent is refused. *)
Theorem get_area_def_propagates_errors (self : NativeMSGFileHandler)
    (dataset_id : DatasetID) (e : exn) :
  get_area_extent self dataset_id = Raise e →
  get_area_def self dataset_id = Raise e.
Proof.
  intros Hget. unfold get_area_def. rewrite Hget.
  destruct (decide (name dataset_id = "HRV")); [|reflexivity].
  destruct (is_full_disk (mda self)); reflexivity.
Qed.

(** A handler that counts as full disk and whose trailer marks a reduced
    scan cannot build the area of the high-resolution channel: the single
    extent it gets does not unpack into the two windows, and the request
    raises [ValueError]. *)
Theorem get_area_def_reduced_scan_full_disk (self : NativeMSGFileHandler)
    (dataset_id : DatasetID) :
  name dataset_id = "HRV" →
  is_full_disk (mda self) = true →
  is_rapid_scan_of self = true →
  earth_model_of self = 1 ∨ earth_model_of self = 2 →
  GridOrigin (ReferenceGridHRV (ImageDescription (data15hd (header self)))) = 2 →
  get_area_def self dataset_id = Raise ValueError.
Proof.
  intros Hname Hfd Hrs Hem Hgrid.
  assert (Hget : ∃ e, get_area_extent self dataset_id = Ok (Extent e)).
  { unfold get_area_extent. fold (earth_model_of self).
    assert (Hoff : ∃ ns we, earth_model_offsets (earth_model_of self) dataset_id
                            = Ok (ns, we)).
    { unfold earth_model_offsets.
      destruct Hem as [-> | ->]; repeat case_decide; eauto; done. }
    destruct Hoff as (ns & we & ->). cbn [mbind result_bind].
    rewrite area_extent_from_eq. unfold grid_of.
    rewrite !decide_True by exact Hname. rewrite Hgrid.
    change (check_grid_origin 2) with (Ok tt). cbn [mbind result_bind].
    rewrite (bool_decide_eq_true_2 _ Hname), Hfd, Hrs. cbn [andb orb].
    eauto. }
  destruct Hget as [e Hget]. unfold get_area_def.
  rewrite decide_True by exact Hname. rewrite Hfd, Hget. reflexivity.
Qed.

(** Outside the full-disk case of the high-resolution channel, an area is
    built from one extent, never from the two-window form, with the line
    and column counts of the metadata for the kind of channel. *)
Theorem get_area_def_single_area (self : NativeMSGFileHandler)
    (dataset_id : DatasetID) (area : Area) :
  name dataset_id ≠ "HRV" ∨ is_full_disk (mda self) = false →
  get_area_def self dataset_id = Ok area →
  ∃ (e : AreaExtent) (pdict : gmap string pvalue),
    get_area_extent self dataset_id = Ok (Extent e)
    ∧ get_area_definition pdict (Extent e) = Ok area
    ∧ pdict !! "nlines"
      = Some (PInt (if decide (name dataset_id = "HRV")
                    then hrv_number_of_lines (mda self)
                    else number_of_lines (mda self)))
    ∧ pdict !! "ncols"
      = Some (PInt (if decide (name dataset_id = "HRV")
                    then hrv_number_of_columns (mda self)
                    else number_of_columns (mda self)))
    ∧ pdict !! "a_name"
      = Some (PStr (if decide (name dataset_id = "HRV")
                    then "geos_seviri_hrv" else "geos_seviri_visir")).
Proof.
  intros Hcase Hdef. unfold get_area_def in Hdef.
  destruct (decide (name dataset_id = "HRV")) as [Hn|Hn].
  - destruct Hcase as [Hc|Hfd]; [contradiction|]. rewrite Hfd in Hdef.
    apply result_bind_Ok in Hdef as (r & Hget & Hdef).
    destruct r as [e|u l un uc ln lc].
    + eexists e, _. split; [exact Hget|]. split; [exact Hdef|].
      split; [lookup_pdict|]. split; lookup_pdict.
    + apply windows_need_full_disk in Hget as (_ & Hfd' & _). congruence.
  - apply result_bind_Ok in Hdef as (r & Hget & Hdef).
    destruct r as [e|u l un uc ln lc].
    + eexists e, _. split; [exact Hget|]. split; [exact Hdef|].
      split; [lookup_pdict|]. split; lookup_pdict.
    + apply windows_need_full_disk in Hget as (Hn' & _). contradiction.
Qed.

(** For the full disk of the high-resolution channel, each window gets its
    own area, built with the line and column counts of that window in place
    of those of the whole channel and with the projection of the file; the
    two are stacked with the lower window first. *)
Theorem get_area_def_two_windows (self : NativeMSGFileHandler)
    (dataset_id : DatasetID) upper lower un uc ln lc :
  is_full_disk (mda self) = true →
  get_area_extent self dataset_id = Ok (Windows upper lower un uc ln lc) →
  ∃ pdict_upper pdict_lower : gmap string pvalue,
    get_area_def self dataset_id
    = (upper_area ← get_area_definition pdict_upper (Extent upper);
       lower_area ← get_area_definition pdict_lower (Extent lower);
       area ← StackedAreaDefinition lower_area upper_area;
       squeeze area)
    ∧ pdict_upper !! "nlines" = Some (PInt un)
    ∧ pdict_upper !! "ncols" = Some (PInt uc)
    ∧ pdict_lower !! "nlines" = Some (PInt ln)
    ∧ pdict_lower !! "ncols" = Some (PInt lc)
    ∧ pdict_upper !! "a_desc"
      = Some (PStr "SEVIRI high resolution channel, upper window")
    ∧ pdict_lower !! "a_desc"
      = Some (PStr "SEVIRI high resolution channel, lower window")
    ∧ ∀ key, key ∈ ["a"; "b"; "h"; "ssp_lon"; "a_name"; "p_id"] →
        pdict_upper !! key = pdict_lower !! key
        ∧ is_Some (pdict_upper !! key).
Proof.
  intros Hfd Hget.
  destruct (windows_need_full_disk _ _ _ _ _ _ _ _ Hget) as (Hn & _ & _).
  eexists _, _. split.
  { unfold get_area_def. rewrite decide_True by exact Hn.
    rewrite Hfd, Hget. reflexivity. }
  do 6 (split; [lookup_pdict|]).
  intros key Hkey.
  repeat (apply elem_of_cons in Hkey as [->|Hkey];
          [split; [lookup_pdict|eexists; lookup_pdict]|]).
  by apply elem_of_nil in Hkey.
Qed.

End AreaDefinition.

(** ** Datasets, further *)

Lemma reshape_Ok (a : list Z) (shp : Z * Z) (d : ndarray) :
  0 <= shp.1 → 0 <= shp.2 →
  reshape a shp = Ok d →
  shape d = shp ∧ flat d = a ∧ Z.of_nat (length a) = shp.1 * shp.2.
Proof.
  destruct shp as [r c]. cbn [fst snd]. intros Hr Hc. unfold reshape.
  repeat case_decide; try discriminate; try lia.
  intros Hd. injection Hd as <-. cbn. auto.
Qed.

Lemma length_rows (n c : nat) (l : list Z) : length (rows n c l) = n.
Proof. revert l. induction n as [|n IH]; intros l; cbn; [done|by rewrite IH]. Qed.

Lemma Forall_rows (n c : nat) (l : list Z) :
  length l = (n * c)%nat → Forall (λ r, length r = c) (rows n c l).
Proof.
  revert l. induction n as [|n IH]; intros l Hl; cbn [rows]; constructor.
  - rewrite length_take. lia.
  - apply IH. rewrite length_drop. lia.
Qed.

Lemma rows_concat (c : nat) (rs : list (list Z)) :
  Forall (λ r, length r = c) rs → rows (length rs) c (concat rs) = rs.
Proof.
  induction 1 as [|r rs Hr _ IH]; [reflexivity|].
  cbn [length rows concat].
  rewrite take_app_length' by (symmetry; exact Hr).
  rewrite drop_app_length' by (symmetry; exact Hr). by rewrite IH.
Qed.

Lemma length_concat_rows (c : nat) (rs : list (list Z)) :
  Forall (λ r, length r = c) rs → length (concat rs) = (length rs * c)%nat.
Proof.
  induction 1 as [|r rs Hr _ IH]; [reflexivity|].
  cbn. rewrite length_app, IH, Hr. reflexivity.
Qed.

Lemma concat_interleave3 (r0 r1 r2 : list (list Z)) :
  concat (zip_with (λ a b, a ++ b) r0 (zip_with (λ a b, a ++ b) r1 r2))
  = concat (interleave3 r0 r1 r2).
Proof.
  revert r1 r2. induction r0 as [|x0 r0 IH]; intros r1 r2; [reflexivity|].
  destruct r1 as [|x1 r1]; [reflexivity|].
  destruct r2 as [|x2 r2]; [reflexivity|].
  cbn. rewrite IH, <- !app_assoc. reflexivity.
Qed.

Lemma length_interleave3 {A} (l0 l1 l2 : list A) :
  length l0 = length l1 → length l1 = length l2 →
  length (interleave3 l0 l1 l2) = (3 * length l0)%nat.
Proof.
  revert l1 l2. induction l0 as [|x0 l0 IH]; intros l1 l2 H01 H12.
  - reflexivity.
  - destruct l1 as [|x1 l1]; [discriminate H01|].
    destruct l2 as [|x2 l2]; [discriminate H12|].
    cbn in *. rewrite (IH l1 l2) by lia. lia.
Qed.

Lemma Forall_interleave3 {A} (P : A → Prop) (l0 l1 l2 : list A) :
  Forall P l0 → Forall P l1 → Forall P l2 → Forall P (interleave3 l0 l1 l2).
Proof.
  intros H0. revert l1 l2. induction H0 as [|x0 l0 Hx0 _ IH]; intros l1 l2 H1 H2.
  - constructor.
  - destruct H1 as [|x1 l1 Hx1 H1]; [constructor|].
    destruct H2 as [|x2 l2 Hx2 H2]; [constructor|].
    cbn. repeat constructor; auto.
Qed.

Section DatasetsMore.
Context `{SeviriBase} `{SEVIRICalibrationHandler}.

(** A dataset is returned only for a channel of the channel list of the
    file; for any other name the request raises [KeyError], before any data
    are read or calibrated. *)
Theorem get_dataset_unavailable_channel (self : NativeMSGFileHandler)
    (dataset_id : DatasetID) (dataset_info : DatasetInfo) :
  (name dataset_id ∉ channel_list (mda self) →
   get_dataset self dataset_id dataset_info = Raise KeyError)
  ∧ (∀ dataset, get_dataset self dataset_id dataset_info = Ok dataset →
       name dataset_id ∈ channel_list (mda self)).
Proof.
  unfold get_dataset, raw_data. split.
  - intros Hout. rewrite decide_True by exact Hout. reflexivity.
  - intros dataset Hget.
    destruct (decide (name dataset_id ∉ channel_list (mda self))) as [Hout|Hin];
      [discriminate Hget|].
    by apply dec_stable.
Qed.

(** When the line and column counts of the channel in the metadata are not
    negative (those of the high-resolution channel for HRV), a counts
    dataset has the dimensions ['y', 'x'], the shape lines by columns and
    one value per pixel of that shape. *)
Theorem counts_dataset_shape (self : NativeMSGFileHandler)
    (dataset_id : DatasetID) (dataset_info : DatasetInfo) (dataset : DataArray) :
  calibration dataset_id = "counts" →
  get_dataset self dataset_id dataset_info = Ok dataset →
  let lines := if decide (name dataset_id = "HRV")
               then hrv_number_of_lines (mda self)
               else number_of_lines (mda self) in
  let columns := if decide (name dataset_id = "HRV")
                 then hrv_number_of_columns (mda self)
                 else number_of_columns (mda self) in
  0 <= lines → 0 <= columns →
  dims dataset = ["y"; "x"]
  ∧ da_shape dataset = (lines, columns)
  ∧ Z.of_nat (length (values dataset)) = lines * columns.
Proof.
  intros Hcounts Hget lines columns Hlines Hcolumns.
  unfold get_dataset in Hget.
  apply result_bind_Ok in Hget as (data & Hraw & Hget).
  apply result_bind_Ok in Hget as (ds & Hcal & Hget).
  injection Hget as <-.
  unfold calibrate in Hcal.
  apply result_bind_Ok in Hcal as (i & _ & Hcal).
  rewrite decide_True in Hcal by exact Hcounts. injection Hcal as <-.
  cbn [set_attrs masked_DataArray dims da_shape values].
  rewrite length_fmap.
  assert (Hshape : shape data = (lines, columns)
                   ∧ Z.of_nat (length (flat data)) = lines * columns).
  { unfold raw_data in Hraw. case_decide; [discriminate Hraw|].
    unfold lines, columns in *.
    destruct (decide (name dataset_id ∉ ["HRV"])) as [Hn|Hn].
    - rewrite decide_False
        by (intros Hc; apply Hn; rewrite Hc; apply list_elem_of_here).
      rewrite decide_False
        by (intros Hc; apply Hn; rewrite Hc; apply list_elem_of_here).
      unfold visir_data in Hraw.
      rewrite decide_False in Hlines, Hcolumns
        by (intros Hc; apply Hn; rewrite Hc; apply list_elem_of_here).
      apply result_bind_Ok in Hraw as (raw & _ & Hraw).
      apply reshape_Ok in Hraw as (Hs & Hf & Hp); [|assumption..].
      rewrite Hs, Hf. auto.
    - assert (Hname : name dataset_id = "HRV").
      { apply dec_stable in Hn. by apply list_elem_of_singleton in Hn. }
      rewrite !decide_True by exact Hname.
      unfold hrv_data in Hraw.
      destruct (hrv (dask_array self)) as [rec|]; [|discriminate Hraw].
      rewrite decide_True in Hlines, Hcolumns by exact Hname.
      do 6 (apply result_bind_Ok in Hraw as (? & _ & Hraw)).
      apply reshape_Ok in Hraw as (Hs & Hf & Hp); [|assumption..].
      rewrite Hs, Hf. auto. }
  destruct Hshape as (-> & ?). auto.
Qed.

(** Every dataset that [get_dataset] returns carries the units, the
    wavelength and the standard name of the request, the platform name of
    the file, the sensor 'seviri' and the orbital parameters of the
    projection, and keeps the values that the calibration produced. *)
Theorem get_dataset_attrs (self : NativeMSGFileHandler)
    (dataset_id : DatasetID) (dataset_info : DatasetInfo) (dataset : DataArray) :
  get_dataset self dataset_id dataset_info = Ok dataset →
  attrs dataset !! "units" = Some (AttrStr (units dataset_info))
  ∧ attrs dataset !! "wavelength"
    = Some (AttrWavelength (wavelength dataset_info))
  ∧ attrs dataset !! "standard_name"
    = Some (AttrStr (standard_name dataset_info))
  ∧ attrs dataset !! "platform_name"
    = Some (AttrStr (platform_name (mda self)))
  ∧ attrs dataset !! "sensor" = Some (AttrStr "seviri")
  ∧ attrs dataset !! "orbital_parameters"
    = Some (AttrOrbital (ssp_longitude (projection_parameters (mda self))) 0
              (proj_h (projection_parameters (mda self))))
  ∧ ∃ data calibrated,
      raw_data self dataset_id = Ok data
      ∧ calibrate self (masked_DataArray data) dataset_id = Ok calibrated
      ∧ values dataset = values calibrated
      ∧ ∀ key, key ∉ ["units"; "wavelength"; "standard_name";
                      "platform_name"; "sensor"; "orbital_parameters"] →
          attrs dataset !! key = attrs calibrated !! key.
Proof.
  intros Hget. unfold get_dataset in Hget.
  apply result_bind_Ok in Hget as (data & Hraw & Hget).
  apply result_bind_Ok in Hget as (ds & Hcal & Hget).
  injection Hget as <-. cbn [set_attrs attrs values].
  do 6 (split; [repeat first [ rewrite lookup_insert_eq
                             | rewrite lookup_insert_ne by discriminate ];
                reflexivity|]).
  exists data, ds. split; [exact Hraw|]. split; [exact Hcal|].
  split; [reflexivity|]. intros key Hkey.
  rewrite !not_elem_of_cons in Hkey.
  destruct Hkey as (? & ? & ? & ? & ? & ? & _).
  rewrite !lookup_insert_ne by congruence. reflexivity.
Qed.

(** With line counts that are not negative and a positive column count,
    the image of the high-resolution channel takes its lines in turn from
    the three records of each scan line: image line 3l + k is line l of
    record k.  The image then has three times the lines of the standard
    channels. *)
Theorem hrv_lines_interleaved (self : NativeMSGFileHandler) (data : ndarray) :
  hrv_data self = Ok data →
  0 <= number_of_lines (mda self) →
  0 <= hrv_number_of_lines (mda self) →
  0 < hrv_number_of_columns (mda self) →
  hrv_number_of_lines (mda self) = 3 * number_of_lines (mda self)
  ∧ ∃ records raw0 raw1 raw2 data0 data1 data2,
      hrv (dask_array self) = Some records
      ∧ take_channel records 0 = Ok raw0
      ∧ take_channel records 1 = Ok raw1
      ∧ take_channel records 2 = Ok raw2
      ∧ reshape (dec10216 (flatten raw0))
          (number_of_lines (mda self), hrv_number_of_columns (mda self))
        = Ok data0
      ∧ reshape (dec10216 (flatten raw1))
          (number_of_lines (mda self), hrv_number_of_columns (mda self))
        = Ok data1
      ∧ reshape (dec10216 (flatten raw2))
          (number_of_lines (mda self), hrv_number_of_columns (mda self))
        = Ok data2
      ∧ ndarray_rows data
        = interleave3 (ndarray_rows data0) (ndarray_rows data1)
            (ndarray_rows data2).
Proof.
  intros Hdata HL HHL Hcols. unfold hrv_data in Hdata.
  destruct (hrv (dask_array self)) as [records|]; [|discriminate Hdata].
  apply result_bind_Ok in Hdata as (raw2 & Hraw2 & Hdata).
  apply result_bind_Ok in Hdata as (raw1 & Hraw1 & Hdata).
  apply result_bind_Ok in Hdata as (raw0 & Hraw0 & Hdata).
  apply result_bind_Ok in Hdata as (data2 & Hd2 & Hdata).
  apply result_bind_Ok in Hdata as (data1 & Hd1 & Hdata).
  apply result_bind_Ok in Hdata as (data0 & Hd0 & Hdata).
  set (L := number_of_lines (mda self)) in *.
  set (C := hrv_number_of_columns (mda self)) in *.
  assert (HC : 0 <= C) by lia.
  destruct (reshape_Ok _ (L, C) _ HL HC Hd0) as (Hs0 & Hf0 & Hl0).
  destruct (reshape_Ok _ (L, C) _ HL HC Hd1) as (Hs1 & Hf1 & Hl1).
  destruct (reshape_Ok _ (L, C) _ HL HC Hd2) as (Hs2 & Hf2 & Hl2).
  apply reshape_Ok in Hdata as (Hs & Hf & Hl); [|assumption..].
  cbn [fst snd] in *.
  assert (Hrows : ∀ d, shape d = (L, C) → Z.of_nat (length (flat d)) = L * C →
            length (ndarray_rows d) = Z.to_nat L
            ∧ Forall (λ r, length r = Z.to_nat C) (ndarray_rows d)).
  { intros d Hsd Hld. unfold ndarray_rows. rewrite Hsd. cbn [fst snd].
    split; [apply length_rows|]. apply Forall_rows. nia. }
  rewrite <- Hf0 in Hl0. rewrite <- Hf1 in Hl1. rewrite <- Hf2 in Hl2.
  destruct (Hrows data0 Hs0 Hl0) as [Hn0 Hr0].
  destruct (Hrows data1 Hs1 Hl1) as [Hn1 Hr1].
  destruct (Hrows data2 Hs2 Hl2) as [Hn2 Hr2].
  assert (Hlen : length (interleave3 (ndarray_rows data0) (ndarray_rows data1)
                           (ndarray_rows data2)) = (3 * Z.to_nat L)%nat).
  { rewrite length_interleave3 by congruence. by rewrite Hn0. }
  assert (Hall : Forall (λ r, length r = Z.to_nat C)
                   (interleave3 (ndarray_rows data0) (ndarray_rows data1)
                      (ndarray_rows data2)))
    by (by apply Forall_interleave3).
  assert (Hflat : flat data
                  = concat (interleave3 (ndarray_rows data0)
                              (ndarray_rows data1) (ndarray_rows data2))).
  { rewrite Hf. unfold stack_axis1. apply concat_interleave3. }
  assert (Hsize : length (flat data) = (3 * Z.to_nat L * Z.to_nat C)%nat).
  { rewrite Hflat. rewrite (length_concat_rows _ _ Hall), Hlen.
    reflexivity. }
  assert (Hlines : hrv_number_of_lines (mda self) = 3 * L).
  { rewrite <- Hf in Hl. rewrite Hsize in Hl. nia. }
  split; [exact Hlines|].
  exists records, raw0, raw1, raw2, data0, data1, data2.
  split; [reflexivity|]. do 6 (split; [assumption|]).
  unfold ndarray_rows at 1. rewrite Hs, Hflat. cbn [fst snd].
  rewrite Hlines. replace (Z.to_nat (3 * L)) with (3 * Z.to_nat L)%nat by lia.
  rewrite <- Hlen. apply rows_concat. exact Hall.
Qed.

End DatasetsMore.

(** ** The layout of a scan line *)

Lemma length_filter_ne (x : string) (l : list string) :
  NoDup l →
  (length (filter (λ s, ¬ s = x) l) + (if decide (x ∈ l) then 1 else 0))%nat
  = length l.
Proof.
  induction 1 as [|y l Hy Hnd IH]; [reflexivity|].
  destruct (decide (y = x)) as [->|Hne].
  - rewrite filter_cons_False by (intros Hc; exact (Hc eq_refl)).
    rewrite (decide_True (P := x ∈ x :: l)) by apply list_elem_of_here.
    rewrite decide_False in IH by exact Hy. cbn. lia.
  - rewrite filter_cons_True by exact Hne. cbn [length].
    destruct (decide (x ∈ l)) as [Hin|Hout].
    + rewrite (decide_True (P := x ∈ y :: l))
        by (by apply list_elem_of_further). lia.
    + rewrite (decide_False (P := x ∈ y :: l))
        by (rewrite elem_of_cons; intros [?|?]; congruence). lia.
Qed.

Section LineLayout.
Context `{SeviriBase}.

(** With the metadata of [_read_header] and a selected rectangle that is
    not empty the other way round (west >= east - 1), the packed samples of
    a line of a standard channel fill their bytes exactly: 8 bits for each
    byte are 10 bits for each column. *)
Theorem visir_line_data_exact (self : NativeMSGFileHandler)
    (pid : Z) (d : data_dtype) :
  _read_header (header self) = Ok (mda self, pid) →
  0 <= ncolumns_of (WestColumnSelectedRectangle (sec15hd (header self)))
         (EastColumnSelectedRectangle (sec15hd (header self))) →
  _get_data_dtype self = Ok d →
  8 * line_data (visir_rec d) = 10 * number_of_columns (mda self).
Proof.
  intros Hread Hn Hdtype.
  destruct (_read_header_inv _ _ _ Hread) as (_ & _ & _ & _ & _ & Hcols & _).
  pose proof (padded_columns
                (ncolumns_of (WestColumnSelectedRectangle (sec15hd (header self)))
                   (EastColumnSelectedRectangle (sec15hd (header self)))))
    as (Hmod & Hrange & _).
  cbv zeta in Hmod, Hrange. rewrite <- Hcols in Hmod, Hrange.
  unfold _get_data_dtype in Hdtype.
  apply result_bind_Ok in Hdtype as (has_hrv & _ & Hdtype).
  unfold np_dtype in Hdtype.
  match type of Hdtype with
  | (if ?c then _ else _) = _ => destruct c; [discriminate Hdtype|]
  end.
  injection Hdtype as <-. cbn [visir_rec get_lrec line_data].
  unfold packed_size.
  assert (Hd : number_of_columns (mda self)
               = 4 * (number_of_columns (mda self) `div` 4)).
  { pose proof (Z.div_mod (number_of_columns (mda self)) 4). lia. }
  rewrite Hd at 1.
  replace (5 * (4 * (number_of_columns (mda self) `div` 4)))
    with (5 * (number_of_columns (mda self) `div` 4) * 4) by lia.
  rewrite Z.quot_mul by lia. lia.
Qed.

(** With the metadata of [_read_header] and distinct channel names, a scan
    line holds one record for every standard channel of the channel list
    and the three records of the high-resolution channel exactly when that
    channel is in the list. *)
Theorem line_records_match_channels (self : NativeMSGFileHandler)
    (pid : Z) (d : data_dtype) :
  _read_header (header self) = Ok (mda self, pid) →
  NoDup CHANNEL_NAMES_values →
  _get_data_dtype self = Ok d →
  (is_Some (hrv_rec d) ↔ "HRV" ∈ channel_list (mda self))
  ∧ (number_of_visir_channels d + (if hrv_rec d is Some _ then 1 else 0))%nat
    = length (channel_list (mda self)).
Proof.
  intros Hread Hnd Hdtype.
  destruct (_read_header_inv _ _ _ Hread) as (Hget & Hsel & _).
  destruct (select_channels_inv _ _ _ Hsel) as (Hsub & _ & Hmem).
  assert (Hnd' : NoDup (channel_list (mda self)))
    by (eapply sublist_NoDup; eassumption).
  unfold _get_data_dtype in Hdtype.
  apply result_bind_Ok in Hdtype as (has_hrv & Hkey & Hdtype).
  destruct (available_channels (mda self) !! "HRV") as [b|] eqn:Hav;
    [|discriminate Hkey].
  injection Hkey as ->.
  assert (Htable : "HRV" ∈ CHANNEL_NAMES_values).
  { unfold get_available_channels in Hget.
    destruct (get_available_channels_loop_keys _ _ _ "HRV" Hget) as [Hin|Hempty];
      [by rewrite Hav|exact Hin|].
    rewrite lookup_empty in Hempty. by destruct Hempty. }
  unfold np_dtype in Hdtype.
  match type of Hdtype with
  | (if ?c then _ else _) = _ => destruct c; [discriminate Hdtype|]
  end.
  injection Hdtype as <-. cbn [hrv_rec number_of_visir_channels].
  pose proof (length_filter_ne "HRV" _ Hnd') as Hcount.
  destruct has_hrv.
  - assert (Hin : "HRV" ∈ channel_list (mda self)) by (apply Hmem; auto).
    rewrite decide_True in Hcount by exact Hin.
    split; [|exact Hcount]. split; [intros _; exact Hin|intros _; eauto].
  - assert (Hout : "HRV" ∉ channel_list (mda self)).
    { intros Hin. apply Hmem in Hin as [_ Hin]. congruence. }
    rewrite decide_False in Hcount by exact Hout.
    split; [|exact Hcount].
    split; [intros [? Hc]; discriminate Hc|intros Hin; contradiction].
Qed.

End LineLayout.

(** * The reader on concrete files *)

Section Examples.
Import Sample.

Ltac by_computation := apply (bool_decide_unpack _); vm_compute; exact I.

Lemma start_end_time_example :
  start_time (full_disk "nominal" 2 2 false)
  = {| Days := 22000; Milliseconds := 43200000 |}
  ∧ end_time (full_disk "nominal" 2 2 false)
    = {| Days := 22000; Milliseconds := 44100000 |}.
Proof. split; reflexivity. Qed.

(** A full-disk file gives the two windows of the high-resolution channel
    with their sizes. *)
Lemma full_disk_hrv_example :
  ∃ upper lower,
    get_area_extent (full_disk "nominal" 2 2 false) (request "HRV" "counts")
    = Ok (Windows upper lower 2880 5568 8256 5568).
Proof. eexists _, _. vm_compute. reflexivity. Qed.

(** The formula on a standard channel of a full-disk file, earth model 1. *)
Lemma area_extent_formula_witness :
  let self := full_disk "nominal" 1 2 false in
  let id := request "VIS006" "counts" in
  ∃ r, get_area_extent self id = Ok r
    ∧ ∃ ns_offset we_offset,
        earth_model_offsets 1 id = Ok (ns_offset, we_offset)
        ∧ r = Extent (extent_formula (center_of id)
                       (inject_Z (1 * 3712)) (inject_Z (1 * 1))
                       (inject_Z (1 * 1)) (inject_Z (1 * 3712))
                       we_offset ns_offset (3 * 1000.0)%Q (3 * 1000.0)%Q).
Proof.
  intros self id.
  assert (Hrun : get_area_extent self id
                 = Ok (Extent (_calculate_area_extent (center_of id)
                         (1 * 3712) (1 * 1) (1 * 1) (1 * 3712)
                         0.5%Q (-0.5)%Q (3 * 1000.0)%Q (3 * 1000.0)%Q)))
    by (vm_compute; reflexivity).
  eexists. split; [exact Hrun|].
  destruct (area_extent_formula self id _ Hrun) as (ns & we & Hoff & Hr).
  exists ns, we. split; [exact Hoff|]. exact (f_equal Extent Hr).
Defined.

(** The offsets under the earth models 2, 1 and 3. *)
Lemma earth_model_offsets_witness :
  get_area_extent (full_disk "nominal" 2 2 false) (request "HRV" "counts")
  = area_extent_from (full_disk "nominal" 2 2 false)
      (request "HRV" "counts") 0%Q 0%Q
  ∧ get_area_extent (full_disk "nominal" 1 2 false) (request "IR_108" "counts")
    = area_extent_from (full_disk "nominal" 1 2 false)
        (request "IR_108" "counts") (-0.5)%Q 0.5%Q
  ∧ get_area_extent (full_disk "nominal" 1 2 false) (request "HRV" "counts")
    = area_extent_from (full_disk "nominal" 1 2 false)
        (request "HRV" "counts") (-1.5)%Q 1.5%Q
  ∧ get_area_extent (full_disk "nominal" 3 2 false) (request "HRV" "counts")
    = Raise NotImplementedError.
Proof.
  split; [|split; [|split]].
  - exact (proj2 (proj1 (earth_model_offsets_spec
             (full_disk "nominal" 2 2 false) (request "HRV" "counts")) eq_refl)).
  - refine (proj2 (proj1 (proj2 (earth_model_offsets_spec
             (full_disk "nominal" 1 2 false) (request "IR_108" "counts")))
             eq_refl _)). discriminate.
  - exact (proj2 (proj1 (proj2 (proj2 (earth_model_offsets_spec
             (full_disk "nominal" 1 2 false) (request "HRV" "counts"))))
             eq_refl eq_refl)).
  - refine (proj2 (proj2 (proj2 (earth_model_offsets_spec
             (full_disk "nominal" 3 2 false) (request "HRV" "counts"))))
             _ _); discriminate.
Defined.

(** GSICS mode on an infrared and on a visible channel of a file that holds
    two channels: the positions 3 and 0 of the full table are used. *)
Lemma gsics_coefficients_witness :
  calibrate (small_region "GsIcS") some_data (request "IR_039" "radiance")
  = _convert_to_radiance some_data 40%Q (-14 * 40)%Q
  ∧ calibrate (small_region "GsIcS") some_data (request "VIS006" "radiance")
    = _convert_to_radiance some_data 1%Q (-1)%Q.
Proof.
  assert (Hlevel : "radiance" ∈ calibrated_levels) by by_computation.
  assert (Hmode : upper "GsIcS" = upper "gsics") by (vm_compute; reflexivity).
  split.
  - assert (Hi : index "IR_039" CHANNEL_NAMES_values = Ok 3%nat)
      by (vm_compute; reflexivity).
    assert (Hir : "IR_039" ∉ VIS_CHANNELS) by by_computation.
    etransitivity.
    + exact (proj2 (proj1 (gsics_coefficients (small_region "GsIcS") some_data
               (request "IR_039" "radiance") 3 Hlevel Hi) Hmode) Hir).
    + vm_compute; reflexivity.
  - assert (Hi : index "VIS006" CHANNEL_NAMES_values = Ok 0%nat)
      by (vm_compute; reflexivity).
    assert (Hvis : "VIS006" ∈ VIS_CHANNELS) by by_computation.
    etransitivity.
    + exact (proj1 (proj1 (gsics_coefficients (small_region "GsIcS") some_data
               (request "VIS006" "radiance") 0 Hlevel Hi) Hmode) Hvis).
    + vm_compute; reflexivity.
Defined.

(** A band selection with the first two and the last two channels. *)
Lemma available_channels_witness :
  let header := make_header 2 2 2 "XX--------XX" 3712 1 1 3712 in
  ∃ available,
    get_available_channels header = Ok available
    ∧ select_channels available CHANNEL_NAMES_values
      = Ok ["VIS006"; "VIS008"; "IR_134"; "HRV"]
    ∧ available !! "HRV" = Some true
    ∧ available !! "IR_016" = Some false.
Proof.
  intros header.
  assert (Hkeys : CHANNEL_NAMES.*1 = Z.of_nat <$> seq 1 12)
    by (vm_compute; reflexivity).
  assert (Hnd : NoDup CHANNEL_NAMES_values) by by_computation.
  assert (Hlen : String.length (SelectedBandIDs (sec15hd header)) = 12%nat)
    by (vm_compute; reflexivity).
  destruct (available_channels_spec header Hkeys Hnd Hlen)
    as (available & chans & Hget & Hsel & Hav & Hchans & _).
  exists available. split; [exact Hget|]. split; [|split].
  - rewrite Hsel, Hchans. vm_compute. reflexivity.
  - refine (proj1 (Hav 12%nat "HRV" "X"%char _ _ _)); [lia|..];
      vm_compute; reflexivity.
  - refine (proj1 (Hav 3%nat "IR_016" "-"%char _ _ _)); [lia|..];
      vm_compute; reflexivity.
Defined.

(** C5: a grid origin outside the table of origins, here 4, makes the
    request raise [KeyError] for a standard channel and for the
    high-resolution channel alike, where the origin 0 of the table raises
    [NotImplementedError]: the message of the error is built first and looks
    the origin up. *)
Theorem grid_origin_outside_table_raises_KeyError :
  get_area_extent (full_disk "nominal" 2 4 false) (request "VIS006" "counts")
  = Raise KeyError
  ∧ get_area_extent (full_disk "nominal" 2 4 false) (request "HRV" "counts")
    = Raise KeyError
  ∧ get_area_extent (full_disk "nominal" 2 0 false) (request "VIS006" "counts")
    = Raise NotImplementedError.
Proof. split; [|split]; vm_compute; reflexivity. Qed.

(** A reduced-scan file gives one extent for the high-resolution channel. *)
Lemma rapid_scan_single_extent_witness :
  ∃ e, get_area_extent (full_disk "nominal" 2 2 true) (request "HRV" "counts")
       = Ok (Extent e).
Proof.
  eexists.
  exact (proj2 (proj2 (rapid_scan_single_extent (full_disk "nominal" 2 2 true)
            (request "HRV" "counts") eq_refl eq_refl)) 0%Q 0%Q eq_refl eq_refl).
Defined.



(** The spans of the full disk of a standard channel. *)
Lemma extent_span_witness :
  let e := _calculate_area_extent 1856 3712 1 1 3712 0 0 3000 3000 in
  (0 < ll_col e - ur_col e)%Q
  ∧ (ll_col e - ur_col e == inject_Z (ncolumns_of 3712 1) * 3000)%Q
  ∧ (0 < ll_row e - ur_row e)%Q
  ∧ (ll_row e - ur_row e == inject_Z (nrows_of 3712 1) * 3000)%Q.
Proof.
  assert (Hns : 3712 > 1) by lia.
  assert (Hstep : (0 < 3000)%Q) by reflexivity.
  exact (extent_span 1856 3712 1 1 3712 3000 3000 Hns Hns Hstep Hstep).
Defined.

(** On the full disk with steps of 3000 m, ur_col - ll_col and
    ur_row - ll_row are negative, and so differ from columns * col_step and
    rows * row_step. *)
Lemma extent_span_sign_counterexample :
  let e := _calculate_area_extent 1856 3712 1 1 3712 0 0 3000 3000 in
  3712 > 1 ∧ (0 < 3000)%Q
  ∧ ¬ (0 < ur_col e - ll_col e)%Q
  ∧ ¬ (ur_col e - ll_col e == inject_Z (ncolumns_of 3712 1) * 3000)%Q
  ∧ ¬ (0 < ur_row e - ll_row e)%Q
  ∧ ¬ (ur_row e - ll_row e == inject_Z (nrows_of 3712 1) * 3000)%Q.
Proof.
  intros e. split; [lia|]. split; [reflexivity|].
  repeat split; intros Hc; vm_compute in Hc; discriminate Hc.
Qed.

(** A counts request on samples 0 1 3 4 / 1 0 0 0. *)
Lemma zero_samples_masked_witness :
  ∃ dataset,
    get_dataset (small_region "nominal") (request "VIS006" "counts") info
    = Ok dataset
    ∧ values dataset
      = [NaN; Val 1; Val 3; Val 4; Val 1; NaN; NaN; NaN].
Proof.
  assert (Hraw : raw_data (small_region "nominal") (request "VIS006" "counts")
                 = Ok {| shape := (2, 4); flat := [0; 1; 3; 4; 1; 0; 0; 0] |})
    by (vm_compute; reflexivity).
  assert (Hchan : "VIS006" ∈ CHANNEL_NAMES_values) by by_computation.
  destruct (proj2 (proj2 (zero_samples_masked (small_region "nominal")
              (request "VIS006" "counts") info)) _ Hraw Hchan eq_refl)
    as (dataset & Hget & Hvalues & _).
  exists dataset. split; [exact Hget|]. rewrite Hvalues. reflexivity.
Defined.

End Examples.

(** * The further properties on concrete files *)

Section MoreExamples.
Import Sample Sample2.

Ltac by_computation := apply (bool_decide_unpack _); vm_compute; exact I.

(** The three records of a line of the high-resolution channel become three
    image lines. *)
Lemma hrv_lines_example :
  ndarray_rows <$> hrv_data hrv_region
  = Ok [replicate 12 0; replicate 12 1023; replicate 12 1].
Proof. vm_compute. reflexivity. Qed.

Lemma read_header_padded_columns_witness :
  ∃ m, _read_header (make_header 2 2 2 "XX--------XX" 10 1 1 6) = Ok (m, 321)
     ∧ number_of_columns m = 8.
Proof.
  assert (Hread : _read_header (make_header 2 2 2 "XX--------XX" 10 1 1 6)
                  = Ok ((read_header_or_default
                           (make_header 2 2 2 "XX--------XX" 10 1 1 6)).1, 321))
    by (vm_compute; reflexivity).
  eexists. split; [exact Hread|].
  pose proof (read_header_padded_columns _ _ _ Hread) as (Hmod & Hrange & _).
  cbv zeta in Hmod, Hrange.
  change (ncolumns_of _ _) with 6 in Hrange.
  pose proof (Z.div_mod
    (number_of_columns (read_header_or_default
       (make_header 2 2 2 "XX--------XX" 10 1 1 6)).1) 4).
  lia.
Defined.

Lemma read_header_full_disk_witness :
  ∃ m, _read_header (make_header 2 2 2 "XX--------XX" 3712 1 1 3712)
       = Ok (m, 321)
     ∧ is_full_disk m = true
     ∧ hrv_number_of_columns m = 11136 `quot` 2.
Proof.
  assert (Hread : _read_header (make_header 2 2 2 "XX--------XX" 3712 1 1 3712)
                  = Ok ((read_header_or_default
                           (make_header 2 2 2 "XX--------XX" 3712 1 1 3712)).1,
                        321))
    by (vm_compute; reflexivity).
  eexists. split; [exact Hread|].
  pose proof (read_header_full_disk _ _ _ Hread) as (Hfd & Hhrv & _).
  cbv zeta in Hfd, Hhrv.
  assert (Hfull : is_full_disk (read_header_or_default
                    (make_header 2 2 2 "XX--------XX" 3712 1 1 3712)).1 = true)
    by (apply Hfd; split; vm_compute; discriminate).
  split; [exact Hfull|]. apply (Hhrv Hfull). vm_compute. reflexivity.
Defined.

Lemma read_header_channels_consistent_witness :
  ∃ m, _read_header (make_header 2 2 2 "XX--------XX" 3712 1 1 3712)
       = Ok (m, 321)
     ∧ ("IR_134" ∈ channel_list m
        ↔ "IR_134" ∈ CHANNEL_NAMES_values
          ∧ available_channels m !! "IR_134" = Some true).
Proof.
  assert (Hread : _read_header (make_header 2 2 2 "XX--------XX" 3712 1 1 3712)
                  = Ok ((read_header_or_default
                           (make_header 2 2 2 "XX--------XX" 3712 1 1 3712)).1,
                        321))
    by (vm_compute; reflexivity).
  eexists. split; [exact Hread|].
  exact (proj1 (read_header_channels_consistent _ _ _ Hread) "IR_134").
Defined.

Lemma get_available_channels_first_twelve_witness :
  get_available_channels (make_header 2 2 2 "XX--------XX-" 3712 1 1 3712)
  = get_available_channels (make_header 2 2 2 "XX--------XXX" 3712 1 1 3712).
Proof.
  exact (get_available_channels_first_twelve
           (make_header 2 2 2 "XX--------XX-" 3712 1 1 3712)
           (make_header 2 2 2 "XX--------XXX" 3712 1 1 3712) eq_refl).
Defined.

Lemma read_header_returns_only_if_witness :
  ∃ m, _read_header (make_header 2 2 2 "XX--------XX-" 3712 1 1 3712)
       = Ok (m, 321)
     ∧ (∃ sat, SATNUM !! 321 = Some sat
               ∧ platform_name m = ("Meteosat-" +:+ sat)%string)
     ∧ channel_list m = ["VIS006"; "VIS008"; "IR_134"; "HRV"].
Proof.
  assert (Hkeys : CHANNEL_NAMES.*1 = Z.of_nat <$> seq 1 12)
    by (vm_compute; reflexivity).
  assert (Hnd : NoDup CHANNEL_NAMES_values) by by_computation.
  assert (Hread : _read_header (make_header 2 2 2 "XX--------XX-" 3712 1 1 3712)
                  = Ok ((read_header_or_default
                           (make_header 2 2 2 "XX--------XX-" 3712 1 1 3712)).1,
                        321))
    by (vm_compute; reflexivity).
  destruct (read_header_returns_only_if _ _ _ Hkeys Hnd Hread)
    as (_ & _ & Hsat & Hchans).
  eexists. split; [exact Hread|]. split; [exact Hsat|].
  rewrite Hchans. vm_compute. reflexivity.
Defined.

Lemma read_header_KeyError_witness :
  _read_header (make_header 2 2 2 "XX---------" 3712 1 1 3712) = Raise KeyError
  ∧ _read_header
      (with_satellite (make_header 2 2 2 "XX--------XX" 3712 1 1 3712) 999)
    = Raise KeyError.
Proof.
  assert (Hkeys : CHANNEL_NAMES.*1 = Z.of_nat <$> seq 1 12)
    by (vm_compute; reflexivity).
  assert (Hnd : NoDup CHANNEL_NAMES_values) by by_computation.
  split.
  - refine (read_header_KeyError _ Hkeys Hnd (or_introl _)). vm_compute. lia.
  - refine (read_header_KeyError _ Hkeys Hnd (or_intror _)).
    vm_compute. reflexivity.
Defined.

Lemma calibrate_unknown_level_witness :
  calibrate (small_region "nominal") some_data (request "VIS006" "albedo")
  = Raise UnboundLocalError.
Proof.
  assert (Hchan : "VIS006" ∈ CHANNEL_NAMES_values) by by_computation.
  assert (Hcounts : "albedo" ≠ "counts") by discriminate.
  assert (Hlevel : "albedo" ∉ calibrated_levels) by by_computation.
  exact (calibrate_unknown_level (small_region "nominal") some_data
           (request "VIS006" "albedo") Hchan Hcounts Hlevel).
Defined.

Lemma calibrate_unknown_channel_witness :
  calibrate (small_region "nominal") some_data (request "VIS007" "counts")
  = Raise ValueError.
Proof.
  assert (Hchan : "VIS007" ∉ CHANNEL_NAMES_values) by by_computation.
  exact (calibrate_unknown_channel (small_region "nominal") some_data
           (request "VIS007" "counts") Hchan).
Defined.

Lemma calibrate_visible_mode_independent_witness :
  calibrate (with_calib_mode (small_region "nominal") "GSICS") some_data
    (request "HRV" "reflectance")
  = calibrate (with_calib_mode (small_region "nominal") "Nominal") some_data
      (request "HRV" "reflectance").
Proof.
  assert (Hg : upper "GSICS" = upper "gsics" ∨ upper "GSICS" = upper "nominal")
    by (left; vm_compute; reflexivity).
  assert (Hn : upper "Nominal" = upper "gsics"
               ∨ upper "Nominal" = upper "nominal")
    by (right; vm_compute; reflexivity).
  assert (Hvis : "HRV" ∈ VIS_CHANNELS) by by_computation.
  exact (calibrate_visible_mode_independent (small_region "nominal") some_data
           (request "HRV" "reflectance") "GSICS" "Nominal" Hg Hn Hvis).
Defined.

Lemma calibrate_reflectance_needs_irradiance_witness :
  solar_irradiance_of (platform_id (small_region "nominal")) "IR_039" = None
  ∧ ∃ e, calibrate (small_region "nominal") some_data
           (request "IR_039" "reflectance") = Raise e.
Proof.
  assert (Hf : solar_irradiance_of (platform_id (small_region "nominal"))
                 "IR_039" = None) by (vm_compute; reflexivity).
  split; [exact Hf|].
  destruct (calibrate (small_region "nominal") some_data
              (request "IR_039" "reflectance")) as [dataset|e] eqn:Hrun.
  - destruct (calibrate_reflectance_needs_irradiance (small_region "nominal")
                some_data (request "IR_039" "reflectance") eq_refl Hf
                dataset Hrun).
  - exists e. reflexivity.
Defined.

Lemma standard_extent_ignores_trailer_witness :
  get_area_extent
    (with_trailer_mda (full_disk "nominal" 2 2 false) (make_trailer true) no_mda)
    (request "IR_108" "counts")
  = get_area_extent (full_disk "nominal" 2 2 false) (request "IR_108" "counts").
Proof.
  assert (Hname : "IR_108" ≠ "HRV") by discriminate.
  exact (standard_extent_ignores_trailer (full_disk "nominal" 2 2 false)
           (request "IR_108" "counts") (make_trailer true) no_mda Hname).
Defined.

Lemma get_area_extent_outcomes_witness :
  (∃ r, get_area_extent (full_disk "nominal" 1 2 false)
          (request "IR_108" "counts") = Ok r)
  ∧ get_area_extent (full_disk "nominal" 1 7 false) (request "IR_108" "counts")
    = Raise KeyError
  ∧ get_area_extent (full_disk "nominal" 5 7 false) (request "IR_108" "counts")
    = Raise NotImplementedError.
Proof.
  split; [|split].
  - apply (proj2 (proj1 (get_area_extent_outcomes
                           (full_disk "nominal" 1 2 false)
                           (request "IR_108" "counts")))).
    split; [left|]; reflexivity.
  - apply (proj2 (proj1 (proj2 (get_area_extent_outcomes
                                  (full_disk "nominal" 1 7 false)
                                  (request "IR_108" "counts"))))).
    split; [left; reflexivity|by_computation].
  - apply (proj2 (proj2 (proj2 (get_area_extent_outcomes
                                  (full_disk "nominal" 5 7 false)
                                  (request "IR_108" "counts"))))).
    left. intros [Hc|Hc]; discriminate Hc.
Defined.

Lemma hrv_windows_span_witness :
  ∃ upper lower,
    get_area_extent (full_disk "nominal" 1 2 false) (request "HRV" "counts")
    = Ok (Windows upper lower 2880 5568 8256 5568)
    ∧ (ll_row upper - ur_row upper == inject_Z 2880 * (1 * 1000.0))%Q
    ∧ (ll_col lower - ur_col lower == inject_Z 5568 * (1 * 1000.0))%Q.
Proof.
  assert (Hget : get_area_extent (full_disk "nominal" 1 2 false)
                   (request "HRV" "counts")
                 = Ok (Windows
                         (_calculate_area_extent (inject_Z 11136 / 2 - 2)
                            11136 2497 8257 8064 1.5 (-1.5)
                            (1 * 1000.0) (1 * 1000.0))
                         (_calculate_area_extent (inject_Z 11136 / 2 - 2)
                            8256 1897 1 7464 1.5 (-1.5)
                            (1 * 1000.0) (1 * 1000.0))
                         2880 5568 8256 5568))
    by (vm_compute; reflexivity).
  eexists _, _. split; [exact Hget|].
  pose proof (hrv_windows_span _ _ _ _ _ _ _ _ Hget)
    as (_ & _ & _ & _ & Hur & _ & _ & Hlc).
  split; [exact Hur|exact Hlc].
Defined.

Lemma offsets_shift_extent_witness :
  ∃ e0 e,
    area_extent_from (full_disk "nominal" 1 2 false)
      (request "IR_108" "counts") 0 0 = Ok (Extent e0)
    ∧ area_extent_from (full_disk "nominal" 1 2 false)
        (request "IR_108" "counts") (-0.5) 0.5 = Ok (Extent e)
    ∧ extent_eq e
        (shift_extent (0.5 * (3 * 1000.0)) (-0.5 * (3 * 1000.0)) e0).
Proof.
  pose proof (offsets_shift_extent (full_disk "nominal" 1 2 false)
                (request "IR_108" "counts") (-0.5)%Q 0.5%Q) as Hshift.
  cbv zeta in Hshift.
  assert (H0 : area_extent_from (full_disk "nominal" 1 2 false)
                 (request "IR_108" "counts") 0 0
               = Ok (Extent (_calculate_area_extent (inject_Z 3712 / 2)
                               (1 * 3712) (1 * 1) (1 * 1) (1 * 3712) 0 0
                               (3 * 1000.0) (3 * 1000.0))))
    by (vm_compute; reflexivity).
  assert (H1 : area_extent_from (full_disk "nominal" 1 2 false)
                 (request "IR_108" "counts") (-0.5) 0.5
               = Ok (Extent (_calculate_area_extent (inject_Z 3712 / 2)
                               (1 * 3712) (1 * 1) (1 * 1) (1 * 3712) 0.5 (-0.5)
                               (3 * 1000.0) (3 * 1000.0))))
    by (vm_compute; reflexivity).
  rewrite H0, H1 in Hshift.
  eexists _, _. split; [exact H0|]. split; [exact H1|exact Hshift].
Defined.

Lemma full_disk_standard_extent_witness :
  ∃ e, get_area_extent (full_disk "nominal" 1 2 false)
         (request "IR_108" "counts") = Ok (Extent e)
     ∧ extent_eq e
         (inject_Z 3712 / 2 * (3 * 1000.0), inject_Z 3712 / 2 * (3 * 1000.0),
          - (inject_Z 3712 / 2) * (3 * 1000.0),
          - (inject_Z 3712 / 2) * (3 * 1000.0))%Q.
Proof.
  assert (Hname : "IR_108" ≠ "HRV") by discriminate.
  exact (proj1 (full_disk_standard_extent (full_disk "nominal" 1 2 false)
                  (request "IR_108" "counts") Hname eq_refl eq_refl eq_refl
                  eq_refl eq_refl) eq_refl).
Defined.

Lemma get_area_def_propagates_errors_witness :
  get_area_def (full_disk "nominal" 3 2 false) (request "HRV" "counts")
  = Raise NotImplementedError.
Proof.
  assert (Hget : get_area_extent (full_disk "nominal" 3 2 false)
                   (request "HRV" "counts") = Raise NotImplementedError)
    by (vm_compute; reflexivity).
  exact (get_area_def_propagates_errors _ _ _ Hget).
Defined.

Lemma get_area_def_reduced_scan_full_disk_witness :
  get_area_def (full_disk "nominal" 2 2 true) (request "HRV" "counts")
  = Raise ValueError.
Proof.
  assert (Hfd : is_full_disk (mda (full_disk "nominal" 2 2 true)) = true)
    by (vm_compute; reflexivity).
  exact (get_area_def_reduced_scan_full_disk (full_disk "nominal" 2 2 true)
           (request "HRV" "counts") eq_refl Hfd eq_refl
           (or_intror eq_refl) eq_refl).
Defined.

Lemma get_area_def_single_area_witness :
  ∃ area e pdict,
    get_area_def (full_disk "nominal" 2 2 false) (request "IR_108" "counts")
    = Ok area
    ∧ get_area_definition pdict (Extent e) = Ok area
    ∧ pdict !! "nlines" = Some (PInt 3712)
    ∧ pdict !! "ncols" = Some (PInt 3712).
Proof.
  assert (Hname : "IR_108" ≠ "HRV") by discriminate.
  assert (Hget : get_area_extent (full_disk "nominal" 2 2 false)
                   (request "IR_108" "counts")
                 = Ok (Extent (_calculate_area_extent (inject_Z 3712 / 2)
                                 (1 * 3712) (1 * 1) (1 * 1) (1 * 3712) 0 0
                                 (3 * 1000.0) (3 * 1000.0))))
    by (vm_compute; reflexivity).
  assert (Hdef : ∃ area, get_area_def (full_disk "nominal" 2 2 false)
                           (request "IR_108" "counts") = Ok area).
  { eexists. unfold get_area_def. rewrite decide_False by exact Hname.
    rewrite Hget. reflexivity. }
  destruct Hdef as [area Hdef].
  destruct (get_area_def_single_area (full_disk "nominal" 2 2 false)
              (request "IR_108" "counts") area (or_introl Hname) Hdef)
    as (e & pdict & _ & Hbuilt & Hlines & Hcols & _).
  exists area, e, pdict. split; [exact Hdef|]. split; [exact Hbuilt|].
  split.
  - rewrite Hlines. vm_compute. reflexivity.
  - rewrite Hcols. vm_compute. reflexivity.
Defined.

Lemma get_area_def_two_windows_witness :
  ∃ area, get_area_def (full_disk "nominal" 2 2 false) (request "HRV" "counts")
          = Ok area
        ∧ length area = 2%nat.
Proof.
  assert (Hfd : is_full_disk (mda (full_disk "nominal" 2 2 false)) = true)
    by (vm_compute; reflexivity).
  assert (Hget : get_area_extent (full_disk "nominal" 2 2 false)
                   (request "HRV" "counts")
                 = Ok (Windows
                         (_calculate_area_extent (inject_Z 11136 / 2 - 2)
                            11136 2497 8257 8064 0 0
                            (1 * 1000.0) (1 * 1000.0))
                         (_calculate_area_extent (inject_Z 11136 / 2 - 2)
                            8256 1897 1 7464 0 0
                            (1 * 1000.0) (1 * 1000.0))
                         2880 5568 8256 5568))
    by (vm_compute; reflexivity).
  destruct (get_area_def_two_windows _ _ _ _ _ _ _ _ Hfd Hget)
    as (pu & pl & Hdef & _).
  eexists. split; [rewrite Hdef; reflexivity|reflexivity].
Defined.

Lemma get_dataset_unavailable_channel_witness :
  get_dataset (small_region "nominal") (request "IR_108" "counts") info
  = Raise KeyError.
Proof.
  assert (Hout : "IR_108" ∉ channel_list (mda (small_region "nominal")))
    by by_computation.
  exact (proj1 (get_dataset_unavailable_channel (small_region "nominal")
                  (request "IR_108" "counts") info) Hout).
Defined.

Lemma counts_dataset_shape_witness :
  ∃ dataset,
    get_dataset (small_region "nominal") (request "VIS006" "counts") info
    = Ok dataset
    ∧ da_shape dataset = (2, 4)
    ∧ length (values dataset) = 8%nat.
Proof.
  assert (Hget : ∃ dataset,
            get_dataset (small_region "nominal") (request "VIS006" "counts") info
            = Ok dataset) by (eexists; vm_compute; reflexivity).
  destruct Hget as [dataset Hget].
  assert (Hlines : number_of_lines (mda (small_region "nominal")) = 2)
    by (vm_compute; reflexivity).
  assert (Hcols : number_of_columns (mda (small_region "nominal")) = 4)
    by (vm_compute; reflexivity).
  pose proof (counts_dataset_shape (small_region "nominal")
                (request "VIS006" "counts") info dataset eq_refl Hget)
    as Hshape.
  cbv zeta in Hshape.
  rewrite decide_False in Hshape by discriminate.
  rewrite decide_False in Hshape by discriminate.
  rewrite Hlines, Hcols in Hshape.
  destruct Hshape as (_ & Hshape & Hlen); [lia..|].
  exists dataset. split; [exact Hget|]. split; [exact Hshape|lia].
Defined.

Lemma get_dataset_attrs_witness :
  ∃ dataset,
    get_dataset (small_region "nominal") (request "VIS006" "radiance") info
    = Ok dataset
    ∧ attrs dataset !! "sensor" = Some (AttrStr "seviri")
    ∧ attrs dataset !! "units" = Some (AttrStr "1").
Proof.
  assert (Hget : ∃ dataset,
            get_dataset (small_region "nominal") (request "VIS006" "radiance") info
            = Ok dataset) by (eexists; vm_compute; reflexivity).
  destruct Hget as [dataset Hget].
  pose proof (get_dataset_attrs (small_region "nominal")
                (request "VIS006" "radiance") info dataset Hget)
    as (Hunits & _ & _ & _ & Hsensor & _).
  exists dataset. split; [exact Hget|]. split; [exact Hsensor|exact Hunits].
Defined.

Lemma hrv_lines_interleaved_witness :
  ∃ data, hrv_data hrv_region = Ok data
        ∧ hrv_number_of_lines (mda hrv_region)
          = 3 * number_of_lines (mda hrv_region).
Proof.
  assert (Hdata : ∃ data, hrv_data hrv_region = Ok data)
    by (eexists; vm_compute; reflexivity).
  destruct Hdata as [data Hdata].
  assert (Hlines : 0 <= number_of_lines (mda hrv_region))
    by (vm_compute; discriminate).
  assert (Hhrv : 0 <= hrv_number_of_lines (mda hrv_region))
    by (vm_compute; discriminate).
  assert (Hcols : 0 < hrv_number_of_columns (mda hrv_region))
    by (vm_compute; reflexivity).
  exists data. split; [exact Hdata|].
  exact (proj1 (hrv_lines_interleaved hrv_region data Hdata Hlines Hhrv Hcols)).
Defined.

Lemma visir_line_data_exact_witness :
  ∃ d, _get_data_dtype (small_region "nominal") = Ok d
     ∧ 8 * line_data (visir_rec d) = 10 * 4.
Proof.
  assert (Hread : _read_header (header (small_region "nominal"))
                  = Ok (mda (small_region "nominal"), 321))
    by (vm_compute; reflexivity).
  assert (Hn : 0 <= ncolumns_of 4 1) by (vm_compute; discriminate).
  assert (Hd : ∃ d, _get_data_dtype (small_region "nominal") = Ok d)
    by (eexists; vm_compute; reflexivity).
  destruct Hd as [d Hd]. exists d. split; [exact Hd|].
  assert (Hcols : number_of_columns (mda (small_region "nominal")) = 4)
    by (vm_compute; reflexivity).
  rewrite <- Hcols.
  exact (visir_line_data_exact (small_region "nominal") 321 d Hread Hn Hd).
Defined.

Lemma line_records_match_channels_witness :
  ∃ d, _get_data_dtype hrv_region = Ok d
     ∧ (is_Some (hrv_rec d) ↔ "HRV" ∈ channel_list (mda hrv_region))
     ∧ (number_of_visir_channels d + (if hrv_rec d is Some _ then 1 else 0))%nat
       = length (channel_list (mda hrv_region)).
Proof.
  assert (Hread : _read_header (header hrv_region) = Ok (mda hrv_region, 321))
    by (vm_compute; reflexivity).
  assert (Hnd : NoDup CHANNEL_NAMES_values) by by_computation.
  assert (Hd : ∃ d, _get_data_dtype hrv_region = Ok d)
    by (eexists; vm_compute; reflexivity).
  destruct Hd as [d Hd]. exists d. split; [exact Hd|].
  exact (line_records_match_channels hrv_region 321 d Hread Hnd Hd).
Defined.

End MoreExamples.
